(** * rcognita/controllers.py: CALF orchestrators, sampled controllers and
      the disassembled-CLF nominal controllers.

    The numeric values of the program are NumPy [float64] scalars.  They are
    embedded as real numbers extended with the IEEE special values (two
    infinities and NaN).  Rounding, underflow and overflow are not modelled,
    so nothing below is stated about the size of a computed value, or about
    its being finite or different from zero.  The embedding is used for what
    float64 arithmetic and this one share: a zero divided by a zero is NaN,
    NaN propagates through every operation, sums and products of exact zeros
    are zero, and [minimum] and [maximum] are exact.  NumPy array arithmetic
    does not raise on a zero divisor, it yields [inf] or [nan]. *)

From Stdlib Require Import Reals Lra Lia List String Bool.
Import ListNotations.
Open Scope R_scope.

(* ------------------------------------------------------------------ *)
(** ** NumPy scalars *)

Module Np.

Inductive fl : Type :=
| Fin (r : R)
| Inf (negative : bool)
| NaN.

Definition is_fin (a : fl) : Prop :=
  match a with Fin _ => True | _ => False end.

Definition is_zero (r : R) : bool :=
  if Req_dec_T r 0 then true else false.

Definition is_neg (r : R) : bool :=
  if Rlt_dec r 0 then true else false.

Definition fneg (a : fl) : fl :=
  match a with
  | Fin r => Fin (- r)
  | Inf s => Inf (negb s)
  | NaN => NaN
  end.

Definition fadd (a b : fl) : fl :=
  match a, b with
  | NaN, _ | _, NaN => NaN
  | Fin x, Fin y => Fin (x + y)
  | Fin _, Inf s | Inf s, Fin _ => Inf s
  | Inf s, Inf t => if Bool.eqb s t then Inf s else NaN
  end.

Definition fsub (a b : fl) : fl := fadd a (fneg b).

Definition fmul (a b : fl) : fl :=
  match a, b with
  | NaN, _ | _, NaN => NaN
  | Fin x, Fin y => Fin (x * y)
  | Fin x, Inf s | Inf s, Fin x =>
      if is_zero x then NaN else Inf (xorb s (is_neg x))
  | Inf s, Inf t => Inf (xorb s t)
  end.

(** [a / b] on float64: no exception, [0/0 = nan], [x/0 = +-inf]. *)
Definition fdiv (a b : fl) : fl :=
  match a, b with
  | NaN, _ | _, NaN => NaN
  | Fin x, Fin y =>
      if is_zero y
      then (if is_zero x then NaN else Inf (is_neg x))
      else Fin (x / y)
  | Fin x, Inf _ => Fin 0
  | Inf s, Fin y => Inf (xorb s (is_neg y))
  | Inf _, Inf _ => NaN
  end.

(** [a ** n] for a positive integer literal [n]. *)
Fixpoint fpow (a : fl) (n : nat) : fl :=
  match n with
  | O => Fin 1
  | S O => a
  | S m => fmul a (fpow a m)
  end.

Definition fabs (a : fl) : fl :=
  match a with
  | Fin r => Fin (Rabs r)
  | Inf _ => Inf false
  | NaN => NaN
  end.

Definition fsign (a : fl) : fl :=
  match a with
  | Fin r => if is_zero r then Fin 0 else if is_neg r then Fin (-1) else Fin 1
  | Inf s => if s then Fin (-1) else Fin 1
  | NaN => NaN
  end.

Definition fsqrt (a : fl) : fl :=
  match a with
  | Fin r => if is_neg r then NaN else Fin (sqrt r)
  | Inf false => Inf false
  | Inf true => NaN
  | NaN => NaN
  end.

Definition fcos (a : fl) : fl :=
  match a with Fin r => Fin (cos r) | _ => NaN end.

Definition fsin (a : fl) : fl :=
  match a with Fin r => Fin (sin r) | _ => NaN end.

(** [a ** (1 / 3)]; the source only applies it to an absolute value. *)
Definition fcbrt (a : fl) : fl :=
  match a with
  | Fin r =>
      if is_zero r then Fin 0
      else if is_neg r then NaN else Fin (Rpower r (1 / 3))
  | Inf false => Inf false
  | Inf true => NaN
  | NaN => NaN
  end.

(** [a == 0] *)
Definition feq0 (a : fl) : bool :=
  match a with Fin r => is_zero r | _ => false end.

(** [a <= b]; every comparison with NaN is false. *)
Definition fle (a b : fl) : Prop :=
  match a, b with
  | NaN, _ | _, NaN => False
  | Fin x, Fin y => x <= y
  | Inf true, _ => True
  | _, Inf false => True
  | _, _ => False
  end.

(** [np.maximum] and [np.minimum] propagate NaN. *)
Definition fmaximum (a b : fl) : fl :=
  match a, b with
  | NaN, _ | _, NaN => NaN
  | Fin x, Fin y => Fin (Rmax x y)
  | Inf false, _ | _, Inf false => Inf false
  | Inf true, c | c, Inf true => c
  end.

Definition fminimum (a b : fl) : fl :=
  match a, b with
  | NaN, _ | _, NaN => NaN
  | Fin x, Fin y => Fin (Rmin x y)
  | Inf true, _ | _, Inf true => Inf true
  | Inf false, c | c, Inf false => c
  end.

(** One-dimensional arrays. *)
Definition vec := list fl.

Definition all_fin (v : vec) : Prop := Forall is_fin v.

Definition not_nan (a : fl) : Prop :=
  match a with NaN => False | _ => True end.

Definition nth_fl (v : vec) (i : nat) : fl := nth i v NaN.

(** NumPy broadcasting of two one-dimensional operands: equal lengths pair
    up, a length-one operand is repeated, anything else is a [ValueError]. *)
Definition broadcast2 (a b : vec) : option (list (fl * fl)) :=
  if Nat.eqb (List.length a) (List.length b) then Some (combine a b)
  else match a, b with
       | [x], _ => Some (map (fun y => (x, y)) b)
       | _, [y] => Some (map (fun x => (x, y)) a)
       | _, _ => None
       end.

Definition zip_with (f : fl -> fl -> fl) (a b : vec) : option vec :=
  option_map (map (fun p => f (fst p) (snd p))) (broadcast2 a b).

(** [np.clip(a, lo, hi)] is [minimum(maximum(a, lo), hi)]. *)
Definition clip (a lo hi : vec) : option vec :=
  match zip_with fmaximum a lo with
  | Some m => zip_with fminimum m hi
  | None => None
  end.

End Np.
Import Np.

(* ------------------------------------------------------------------ *)
(** ** Calls that may raise, over the mutable object [self] *)

Inductive exn : Type := TypeError | ValueError | IndexError.

Inductive res (A : Type) : Type :=
| Ok (a : A)
| Raise (e : exn).
Arguments Ok {A} a.
Arguments Raise {A} e.

(** A method call: the object after the call and either the returned value
    or the exception; what was mutated before a raise stays mutated. *)
Definition M (S A : Type) : Type := S -> res A * S.

Definition ret {S A} (a : A) : M S A := fun s => (Ok a, s).

Definition bind {S A B} (m : M S A) (f : A -> M S B) : M S B :=
  fun s => match m s with
           | (Ok a, s1) => f a s1
           | (Raise e, s1) => (Raise e, s1)
           end.

Definition raise {S A} (e : exn) : M S A := fun s => (Raise e, s).
Definition get {S} : M S S := fun s => (Ok s, s).
Definition modify {S} (f : S -> S) : M S unit := fun s => (Ok tt, f s).
Definition lift_opt {S A} (e : exn) (o : option A) : M S A :=
  match o with Some a => ret a | None => raise e end.

Notation "x <- m ;; k" := (bind m (fun x => k))
  (at level 61, m at next level, right associativity).
Notation "m ;;; k" := (bind m (fun _ => k))
  (at level 61, right associativity).

Definition value_of {A} (r : res A) : option A :=
  match r with Ok a => Some a | Raise _ => None end.

(* ------------------------------------------------------------------ *)
(** ** [apply_action_bounds] *)

(** The values the attribute [action_bounds] takes: [None] (the default of
    every constructor here), the empty list [[]], or a two-column array of
    [low, high] rows. *)
Inductive bounds : Type :=
| BoundsNone
| BoundsEmpty
| BoundsArray (rows : list (fl * fl)).

(** [self.action_bounds != []] *)
Definition bounds_differ_from_empty_list (b : bounds) : bool :=
  match b with BoundsEmpty => false | _ => true end.

(** [np.clip(action, self.action_bounds[:, 0], self.action_bounds[:, 1])];
    [None] is not subscriptable. *)
Definition clip_to (b : bounds) (action : vec) : res vec :=
  match b with
  | BoundsNone => Raise TypeError
  | BoundsEmpty => Raise TypeError
  | BoundsArray rows =>
      match clip action (map fst rows) (map snd rows) with
      | Some c => Ok c
      | None => Raise ValueError
      end
  end.

(** Objects the decorator is applied to: they carry [action_bounds] and
    receive the attribute [action]. *)
Class Bounded (S : Type) : Type := {
  action_bounds_of : S -> bounds;
  store_action : vec -> S -> S
}.

Definition apply_action_bounds {S} `{Bounded S} (method : M S vec) : M S vec :=
  a <- method ;;
  modify (store_action a) ;;;
  self <- get ;;
  if bounds_differ_from_empty_list (action_bounds_of self)
  then
    match clip_to (action_bounds_of self) a with
    | Ok c => modify (store_action c) ;;; ret c
    | Raise e => raise e
    end
  else ret a.

(** What the decorator returns for the action [a] under bounds [b]. *)
Definition clipped (b : bounds) (a : vec) : res vec :=
  if bounds_differ_from_empty_list b then clip_to b a else Ok a.

(** Element-wise containment in the configured rows. *)
Definition within_bounds (rows : list (fl * fl)) (action : vec) : Prop :=
  Forall2 (fun a row => fle (fst row) a /\ fle a (snd row)) action rows.

(** Rows whose low end is at most the high end (no NaN among them). *)
Definition well_formed_rows (rows : list (fl * fl)) : Prop :=
  Forall (fun row => fle (fst row) (snd row)) rows.

(* ------------------------------------------------------------------ *)
(** ** Clocks *)

(** The class [Clock] is imported from [__utilities]; the controllers only
    call [check_time] and [reset] on it. *)
Class ClockOps (C : Type) : Type := {
  check_time : R -> C -> bool * C;
  clock_reset : C -> C
}.

(** Modelled from the spec: the class [Clock] of [__utilities], which is not
    part of the sources at hand.  [check_time] is true exactly when the time
    has crossed a period boundary since the last true reply; [reset] rewinds
    to the construction-time origin without altering the period. *)
Record RefClock : Type := {
  rc_period : R;
  rc_time_start : R;
  rc_current_time : R
}.

Definition ref_check_time (t : R) (c : RefClock) : bool * RefClock :=
  if Rle_dec (rc_current_time c + rc_period c) t
  then (true, {| rc_period := rc_period c;
                 rc_time_start := rc_time_start c;
                 rc_current_time := t |})
  else (false, c).

Definition ref_clock_reset (c : RefClock) : RefClock :=
  {| rc_period := rc_period c;
     rc_time_start := rc_time_start c;
     rc_current_time := rc_time_start c |}.

(** [Clock(period=p, time_start=t0)] *)
Definition new_clock (p t0 : R) : RefClock :=
  {| rc_period := p; rc_time_start := t0; rc_current_time := t0 |}.

#[export] Instance RefClockOps : ClockOps RefClock :=
  {| check_time := ref_check_time; clock_reset := ref_clock_reset |}.

(* ------------------------------------------------------------------ *)
(** ** [Controller3WRobotNIDisassembledCLF] *)

Module NI.

Record V3 : Type := { v0 : fl; v1 : fl; v2 : fl }.

Definition two : fl := Fin 2.
Definition three : fl := Fin 3.
Definition four : fl := Fin 4.
Definition one : fl := Fin 1.
Definition half : fl := fdiv (Fin 1) (Fin 2).

(** [_Cart2NH] *)
Definition Cart2NH (coords_Cart : vec) : res V3 :=
  match coords_Cart with
  | xc :: yc :: angle :: _ =>
      Ok {| v0 := angle;
            v1 := fadd (fmul xc (fcos angle)) (fmul yc (fsin angle));
            v2 := fsub
                    (fmul (fneg two)
                       (fsub (fmul yc (fcos angle)) (fmul xc (fsin angle))))
                    (fmul angle
                       (fadd (fmul xc (fcos angle)) (fmul yc (fsin angle)))) |}
  | _ => Raise IndexError
  end.

Definition sigma (xNI : V3) : fl :=
  fadd (fsqrt (fadd (fpow (v0 xNI) 2) (fpow (v1 xNI) 2)))
       (fsqrt (fabs (v2 xNI))).

Definition sigma_tilde (xNI : V3) (theta : fl) : fl :=
  fadd (fadd (fmul (v0 xNI) (fcos theta)) (fmul (v1 xNI) (fsin theta)))
       (fsqrt (fabs (v2 xNI))).

(** The analytic gradient [nablaL] of [_zeta]. *)
Definition nablaL (xNI : V3) : V3 :=
  let radial k :=
    fmul (fmul (fdiv (fmul (fdiv (fpow (fabs (v2 xNI)) 3)
                                 (fpow (sigma xNI) 3))
                           one)
                     (fpow (fsqrt (fadd (fpow (v0 xNI) 2)
                                        (fpow (v1 xNI) 2))) 3))
               two)
         k in
  {| v0 := fadd (fmul four (fpow (v0 xNI) 3)) (radial (v0 xNI));
     v1 := fadd (fmul four (fpow (v1 xNI) 3)) (radial (v1 xNI));
     v2 := fadd (fmul (fmul three (fpow (fabs (v2 xNI)) 2)) (fsign (v2 xNI)))
                (fmul (fdiv (fmul (fdiv (fpow (fabs (v2 xNI)) 3)
                                        (fpow (sigma xNI) 3))
                                  one)
                            (fsqrt (fabs (v2 xNI))))
                      (fsign (v2 xNI))) |}.

(** The gradient [nablaF] of [_zeta] at angle [theta]. *)
Definition nablaF (xNI : V3) (theta : fl) : V3 :=
  let st3 := fpow (sigma_tilde xNI theta) 3 in
  {| v0 := fsub (fmul four (fpow (v0 xNI) 3))
                (fdiv (fmul (fmul two (fpow (fabs (v2 xNI)) 3)) (fcos theta))
                      st3);
     v1 := fsub (fmul four (fpow (v1 xNI) 3))
                (fdiv (fmul (fmul two (fpow (fabs (v2 xNI)) 3)) (fsin theta))
                      st3);
     v2 := fdiv
             (fmul (fmul (fadd (fadd (fmul (fmul three (v0 xNI)) (fcos theta))
                                     (fmul (fmul three (v1 xNI)) (fsin theta)))
                               (fmul two (fsqrt (fabs (v2 xNI)))))
                         (fpow (v2 xNI) 2))
                   (fsign (v2 xNI)))
             st3 |}.

(** Which of the two gradients [_zeta] returns. *)
Definition guard (xNI : V3) : bool :=
  feq0 (v0 xNI) && feq0 (v1 xNI).

(** [_zeta]: both gradients are computed, then one is returned. *)
Definition zeta (xNI : V3) : V3 :=
  let nL := nablaL xNI in
  let theta := Fin 0 in
  let nF := nablaF xNI theta in
  if guard xNI then nF else nL.

Definition dot3 (a b : V3) : fl :=
  fadd (fadd (fmul (v0 a) (v0 b)) (fmul (v1 a) (v1 b))) (fmul (v2 a) (v2 b)).

(** [_kappa] *)
Definition kappa (xNI : V3) : fl * fl :=
  let G0 := {| v0 := Fin 1; v1 := Fin 0; v2 := v1 xNI |} in
  let G1 := {| v0 := Fin 0; v1 := Fin 1; v2 := fneg (v0 xNI) |} in
  let zeta_val := zeta xNI in
  (fmul (fneg (fcbrt (fabs (dot3 zeta_val G0)))) (fsign (dot3 zeta_val G0)),
   fmul (fneg (fcbrt (fabs (dot3 zeta_val G1)))) (fsign (dot3 zeta_val G1))).

(** [_NH2ctrl_Cart] *)
Definition NH2ctrl_Cart (xNI : V3) (uNI : fl * fl) : vec :=
  [ fadd (snd uNI)
         (fmul (fmul half (fst uNI))
               (fadd (v2 xNI) (fmul (v0 xNI) (v1 xNI))));
    fst uNI ].

(** The value [compute_LF] appends to [Ls] and returns. *)
Definition LF_value (xNI : V3) : fl :=
  fadd (fadd (fpow (v0 xNI) 4) (fpow (v1 xNI) 4))
       (fdiv (fpow (fabs (v2 xNI)) 3) (fpow (sigma xNI) 2)).

(** States with [x = 0] and [angle = 0], after the transform. *)
Definition on_axis (y : R) : V3 :=
  {| v0 := Fin 0; v1 := Fin 0; v2 := Fin (- 2 * y) |}.

Section Controller.
Context {C : Type} `{ClockOps C}.

Record t : Type := {
  controller_gain : fl;
  action_bounds : bounds;
  controller_clock : R;
  time_start : R;
  sampling_time : R;
  Ls : list fl;
  times : list R;
  action_old : vec;
  action : option vec;
  clock : C
}.

(** [__init__]; [c] is the [Clock(period=sampling_time, time_start=time_start)]
    it builds. *)
Definition init (gain : fl) (b : bounds) (t0 dt : R) (c : C) : t :=
  {| controller_gain := gain; action_bounds := b;
     controller_clock := t0; time_start := t0; sampling_time := dt;
     Ls := []; times := []; action_old := [Fin 0; Fin 0];
     action := None; clock := c |}.

(** [reset] *)
Definition reset (s : t) : t :=
  {| controller_gain := controller_gain s; action_bounds := action_bounds s;
     controller_clock := time_start s; time_start := time_start s;
     sampling_time := sampling_time s; Ls := Ls s; times := times s;
     action_old := [Fin 0; Fin 0]; action := action s; clock := clock s |}.

Definition set_action (a : vec) (s : t) : t :=
  {| controller_gain := controller_gain s; action_bounds := action_bounds s;
     controller_clock := controller_clock s; time_start := time_start s;
     sampling_time := sampling_time s; Ls := Ls s; times := times s;
     action_old := action_old s; action := Some a; clock := clock s |}.

Definition set_action_old (a : vec) (s : t) : t :=
  {| controller_gain := controller_gain s; action_bounds := action_bounds s;
     controller_clock := controller_clock s; time_start := time_start s;
     sampling_time := sampling_time s; Ls := Ls s; times := times s;
     action_old := a; action := action s; clock := clock s |}.

Definition append_L (l : fl) (s : t) : t :=
  {| controller_gain := controller_gain s; action_bounds := action_bounds s;
     controller_clock := controller_clock s; time_start := time_start s;
     sampling_time := sampling_time s; Ls := Ls s ++ [l]; times := times s;
     action_old := action_old s; action := action s; clock := clock s |}.

Definition append_time (x : R) (s : t) : t :=
  {| controller_gain := controller_gain s; action_bounds := action_bounds s;
     controller_clock := controller_clock s; time_start := time_start s;
     sampling_time := sampling_time s; Ls := Ls s; times := times s ++ [x];
     action_old := action_old s; action := action s; clock := clock s |}.

Definition set_clock (c : C) (s : t) : t :=
  {| controller_gain := controller_gain s; action_bounds := action_bounds s;
     controller_clock := controller_clock s; time_start := time_start s;
     sampling_time := sampling_time s; Ls := Ls s; times := times s;
     action_old := action_old s; action := action s; clock := c |}.

#[export] Instance Bounded_t : Bounded t :=
  {| action_bounds_of := action_bounds; store_action := set_action |}.

(** [compute_LF] *)
Definition compute_LF (observation : vec) : M t fl :=
  xNI <- lift_opt IndexError (value_of (Cart2NH observation)) ;;
  modify (append_L (LF_value xNI)) ;;;
  ret (LF_value xNI).

(** The body of [compute_action], before the decorator. *)
Definition compute_action_body (observation : vec) : M t vec :=
  xNI <- lift_opt IndexError (value_of (Cart2NH observation)) ;;
  self <- get ;;
  let kappa_val := kappa xNI in
  let uNI := (fmul (controller_gain self) (fst kappa_val),
              fmul (controller_gain self) (snd kappa_val)) in
  let a := NH2ctrl_Cart xNI uNI in
  modify (set_action a) ;;;
  modify (set_action_old a) ;;;
  compute_LF observation ;;;
  ret a.

Definition compute_action (observation : vec) : M t vec :=
  apply_action_bounds (compute_action_body observation).

(** The action [compute_action] computes from the transformed state. *)
Definition body_action (s : t) (xNI : V3) : vec :=
  NH2ctrl_Cart xNI (fmul (controller_gain s) (fst (kappa xNI)),
                    fmul (controller_gain s) (snd (kappa xNI))).

(** [compute_action_sampled] *)
Definition compute_action_sampled (time : R) (observation : vec) : M t vec :=
  self <- get ;;
  let (is_time_for_new_sample, c) := check_time time (clock self) in
  modify (set_clock c) ;;;
  if is_time_for_new_sample
  then
    a <- compute_action observation ;;
    modify (append_time time) ;;;
    modify (set_action_old a) ;;;
    ret a
  else
    self' <- get ;;
    ret (action_old self').

End Controller.
Arguments t : clear implicits.
End NI.

(** The controller built by [Controller3WRobotNIDisassembledCLF()], all
    arguments at their defaults. *)
Definition ni_unbounded : NI.t RefClock :=
  NI.init (Fin 10) BoundsNone 0 (1 / 10) (new_clock (1 / 10) 0).

(** The controller built by
    [Controller3WRobotNIDisassembledCLF(action_bounds=[])]. *)
Definition ni_default : NI.t RefClock :=
  NI.init (Fin 10) BoundsEmpty 0 (1 / 10) (new_clock (1 / 10) 0).



(* ------------------------------------------------------------------ *)
(** ** [Controller3WRobotDisassembledCLF] *)

Module CLF.
Import NI.

(** [_zeta(xNI, theta)]: the expressions are those of [nablaF] in the NI
    class, at a free angle. *)
Definition zeta (xNI : V3) (theta : fl) : V3 := nablaF xNI theta.

(** [_kappa(xNI, theta)] *)
Definition kappa (xNI : V3) (theta : fl) : fl * fl :=
  let G0 := {| v0 := Fin 1; v1 := Fin 0; v2 := v1 xNI |} in
  let G1 := {| v0 := Fin 0; v1 := Fin 1; v2 := fneg (v0 xNI) |} in
  let zeta_val := zeta xNI theta in
  (fmul (fneg (fcbrt (fabs (dot3 zeta_val G0)))) (fsign (dot3 zeta_val G0)),
   fmul (fneg (fcbrt (fabs (dot3 zeta_val G1)))) (fsign (dot3 zeta_val G1))).

(** [_Fc] *)
Definition Fc (xNI : V3) (eta : fl * fl) (theta : fl) : fl :=
  let F := fadd (fadd (fpow (v0 xNI) 4) (fpow (v1 xNI) 4))
                (fdiv (fpow (fabs (v2 xNI)) 3)
                      (fpow (sigma_tilde xNI theta) 2)) in
  let k := kappa xNI theta in
  let z := (fsub (fst eta) (fst k), fsub (snd eta) (snd k)) in
  fadd F (fmul half (fadd (fmul (fst z) (fst z)) (fmul (snd z) (snd z)))).

(** [_Cart2NH] *)
Definition Cart2NH (coords_Cart : vec) : res (V3 * (fl * fl)) :=
  match coords_Cart with
  | xc :: yc :: angle :: v :: omega :: _ =>
      Ok ({| v0 := angle;
             v1 := fadd (fmul xc (fcos angle)) (fmul yc (fsin angle));
             v2 := fsub
                     (fmul (fneg two)
                        (fsub (fmul yc (fcos angle)) (fmul xc (fsin angle))))
                     (fmul angle
                        (fadd (fmul xc (fcos angle)) (fmul yc (fsin angle)))) |},
          (omega,
           fadd (fmul (fsub (fmul yc (fcos angle)) (fmul xc (fsin angle)))
                      omega)
                v))
  | _ => Raise IndexError
  end.

Section Controller.
Context {C : Type} `{ClockOps C}.

(** The bounded scalar minimisation of [_minimizer_theta] is delegated to
    SciPy or CasADi; only its result is used. *)
Variable minimizer_theta : V3 -> fl * fl -> fl.

Record t : Type := {
  m : fl;
  I : fl;
  controller_gain : fl;
  action_bounds : bounds;
  controller_clock : R;
  sampling_time : R;
  clock : C;
  action_old : vec;
  action : option vec
}.

(** [__init__] with the [Clock] it builds. *)
Definition init (m0 I0 gain : fl) (b : bounds) (t0 dt : R) (c : C) : t :=
  {| m := m0; I := I0; controller_gain := gain; action_bounds := b;
     controller_clock := t0; sampling_time := dt; clock := c;
     action_old := [Fin 0; Fin 0]; action := None |}.

Definition set_action (a : vec) (s : t) : t :=
  {| m := m s; I := I s; controller_gain := controller_gain s;
     action_bounds := action_bounds s; controller_clock := controller_clock s;
     sampling_time := sampling_time s; clock := clock s;
     action_old := action_old s; action := Some a |}.

Definition set_action_old (a : vec) (s : t) : t :=
  {| m := m s; I := I s; controller_gain := controller_gain s;
     action_bounds := action_bounds s; controller_clock := controller_clock s;
     sampling_time := sampling_time s; clock := clock s;
     action_old := a; action := action s |}.

Definition set_clock (c : C) (s : t) : t :=
  {| m := m s; I := I s; controller_gain := controller_gain s;
     action_bounds := action_bounds s; controller_clock := controller_clock s;
     sampling_time := sampling_time s; clock := c;
     action_old := action_old s; action := action s |}.

#[export] Instance Bounded_t : Bounded t :=
  {| action_bounds_of := action_bounds; store_action := set_action |}.

(** [reset]: only [action_old] is assigned. *)
Definition reset (s : t) : t := set_action_old [Fin 0; Fin 0] s.

(** [_NH2ctrl_Cart] *)
Definition NH2ctrl_Cart (s : t) (xNI : V3) (eta uNI : fl * fl) : vec :=
  [ fmul (m s)
      (fadd (fadd (snd uNI) (fmul (v1 xNI) (fpow (fst eta) 2)))
            (fmul half
               (fadd (fmul (fmul (v0 xNI) (v1 xNI)) (fst uNI))
                     (fmul (fst uNI) (v2 xNI)))));
    fmul (I s) (fst uNI) ].

(** The body of [compute_action], before the decorator. *)
Definition compute_action_body (observation : vec) : M t vec :=
  p <- lift_opt IndexError (value_of (Cart2NH observation)) ;;
  self <- get ;;
  let (xNI, eta) := (p : V3 * (fl * fl)) in
  let theta_star := minimizer_theta xNI eta in
  let kappa_val := kappa xNI theta_star in
  let z := (fsub (fst eta) (fst kappa_val), fsub (snd eta) (snd kappa_val)) in
  let uNI := (fmul (fneg (controller_gain self)) (fst z),
              fmul (fneg (controller_gain self)) (snd z)) in
  let a := NH2ctrl_Cart self xNI eta uNI in
  modify (set_action_old a) ;;;
  ret a.

Definition compute_action (observation : vec) : M t vec :=
  apply_action_bounds (compute_action_body observation).

(** [compute_action_sampled] *)
Definition compute_action_sampled (time : R) (observation : vec) : M t vec :=
  self <- get ;;
  let (is_time_for_new_sample, c) := check_time time (clock self) in
  modify (set_clock c) ;;;
  if is_time_for_new_sample
  then
    a <- compute_action observation ;;
    modify (set_action_old a) ;;;
    ret a
  else
    self' <- get ;;
    ret (action_old self').

(** [compute_LF] *)
Definition compute_LF (observation : vec) : res fl :=
  match Cart2NH observation with
  | Ok (xNI, eta) => Ok (Fc xNI eta (minimizer_theta xNI eta))
  | Raise e => Raise e
  end.

End Controller.
Arguments t : clear implicits.
End CLF.

(** [Controller3WRobotDisassembledCLF(m=1, I=1, action_bounds=[],
    sampling_time=0.1)]. *)
Definition clf_default : CLF.t RefClock :=
  CLF.init (Fin 1) (Fin 1) (Fin 10) BoundsEmpty 0 (1 / 10)
           (new_clock (1 / 10) 0).

(* ------------------------------------------------------------------ *)
(** ** [ControllerKinPoint] *)

Module KinPoint.
Section Controller.
Context {C : Type} `{ClockOps C}.

Record t : Type := {
  action_bounds : bounds;
  gain : fl;
  controller_clock : R;
  sampling_time : R;
  Ls : list fl;
  times : list R;
  action_old : vec;
  clock : C;
  time_start : R;
  action : option vec
}.

(** [__init__]: a missing [action_bounds] becomes the empty list. *)
Definition init (g : fl) (b : bounds) (t0 dt : R) (c : C) : t :=
  {| action_bounds := match b with BoundsNone => BoundsEmpty | _ => b end;
     gain := g; controller_clock := t0; sampling_time := dt;
     Ls := []; times := []; action_old := [Fin 0; Fin 0]; clock := c;
     time_start := t0; action := None |}.

Definition set_action (a : vec) (s : t) : t :=
  {| action_bounds := action_bounds s; gain := gain s;
     controller_clock := controller_clock s; sampling_time := sampling_time s;
     Ls := Ls s; times := times s; action_old := action_old s;
     clock := clock s; time_start := time_start s; action := Some a |}.

Definition set_action_old (a : vec) (s : t) : t :=
  {| action_bounds := action_bounds s; gain := gain s;
     controller_clock := controller_clock s; sampling_time := sampling_time s;
     Ls := Ls s; times := times s; action_old := a;
     clock := clock s; time_start := time_start s; action := action s |}.

Definition set_clock (c : C) (s : t) : t :=
  {| action_bounds := action_bounds s; gain := gain s;
     controller_clock := controller_clock s; sampling_time := sampling_time s;
     Ls := Ls s; times := times s; action_old := action_old s;
     clock := c; time_start := time_start s; action := action s |}.

Definition sampled_at (x : R) (s : t) : t :=
  {| action_bounds := action_bounds s; gain := gain s;
     controller_clock := x; sampling_time := sampling_time s;
     Ls := Ls s; times := times s; action_old := action_old s;
     clock := clock s; time_start := time_start s; action := action s |}.

Definition append_time (x : R) (s : t) : t :=
  {| action_bounds := action_bounds s; gain := gain s;
     controller_clock := controller_clock s; sampling_time := sampling_time s;
     Ls := Ls s; times := times s ++ [x]; action_old := action_old s;
     clock := clock s; time_start := time_start s; action := action s |}.

#[export] Instance Bounded_t : Bounded t :=
  {| action_bounds_of := action_bounds; store_action := set_action |}.

(** [compute_action]: [-self.gain * observation] under the decorator. *)
Definition compute_action (observation : vec) : M t vec :=
  apply_action_bounds
    (self <- get ;; ret (map (fmul (fneg (gain self))) observation)).

(** [compute_action_sampled] *)
Definition compute_action_sampled (time : R) (observation : vec) : M t vec :=
  self <- get ;;
  let (is_time_for_new_sample, c) := check_time time (clock self) in
  modify (set_clock c) ;;;
  if is_time_for_new_sample
  then
    modify (sampled_at time) ;;;
    a <- compute_action observation ;;
    modify (append_time time) ;;;
    modify (set_action_old a) ;;;
    ret a
  else
    self' <- get ;;
    ret (action_old self').

(** [reset] *)
Definition reset (s : t) : t :=
  {| action_bounds := action_bounds s; gain := gain s;
     controller_clock := time_start s; sampling_time := sampling_time s;
     Ls := []; times := []; action_old := action_old s;
     clock := clock s; time_start := time_start s; action := action s |}.

End Controller.
Arguments t : clear implicits.
End KinPoint.

(** [ControllerKinPoint(gain=1, action_bounds=np.array([[-1, 1], [-1, 1]]))]. *)
Definition kin_point_bounded : KinPoint.t RefClock :=
  KinPoint.init (Fin 1) (BoundsArray [(Fin (-1), Fin 1); (Fin (-1), Fin 1)])
                0 1 (new_clock 1 0).

(* ------------------------------------------------------------------ *)
(** ** What the orchestrator asks of its fallback controller *)

(** [actor.safe_controller]: any of the nominal controllers; the
    orchestrator calls [compute_action(observation)] and, in safe-only mode,
    [compute_action_sampled(time, observation, ...)]. *)
Class SafeOps (S : Type) : Type := {
  safe_compute_action : vec -> M S vec;
  safe_compute_action_sampled : R -> vec -> M S vec
}.

#[export] Instance KinPoint_SafeOps {C} `{ClockOps C} : SafeOps (KinPoint.t C) :=
  {| safe_compute_action := KinPoint.compute_action;
     safe_compute_action_sampled := KinPoint.compute_action_sampled |}.

#[export] Instance NI_SafeOps {C} `{ClockOps C} : SafeOps (NI.t C) :=
  {| safe_compute_action := NI.compute_action;
     safe_compute_action_sampled := NI.compute_action_sampled |}.

(* ------------------------------------------------------------------ *)
(** ** [Controller], [RLController] and the CALF orchestrators *)

Module CALF.

(** Calls the orchestrator makes on its collaborators and the acceptance
    statuses it reads to branch, in program order. *)
Inductive event : Type :=
| CriticUpdateBuffers (observation action : vec)
| ActorReceiveObservation (observation : vec)
| ActorUpdateTarget (target : vec)
| CriticUpdateTarget (target : vec)
| CriticOptimizeWeights (time : R)
| CriticUpdateWeights
| CriticCacheWeights
| CriticUpdateAndCacheWeights
| CriticRestoreWeights
| CriticCall (observation : vec) (value : fl)
| ReadCriticStatus (status : string)
| ReadActorStatus (status : string)
| ActorOptimizeWeights
| ActorUpdateAndCacheWeights
| ActorUpdateAction
| ActorSetAction (action : vec)
| ActorModelUpdateAndCacheWeights (weights : vec)
| SafeComputeAction (observation action : vec).

(** The three classes that share [Controller.compute_action_sampled]. *)
Inductive variant : Type := RL | ExPost | Predictive.

Definition accepted (status : string) : bool := String.eqb status "accepted".

(** [xs[-1] = v] on a non-empty list. *)
Definition set_last {A} (v : A) (xs : list A) : list A :=
  removelast xs ++ [v].

(** The calls of one pass through [invoke_safe_action]. *)
Definition fallback_events (d a : vec) : list event :=
  [CriticRestoreWeights; SafeComputeAction d a; ActorSetAction a;
   ActorModelUpdateAndCacheWeights a].

(** The three ways a sample of the ExPost and Predictive orchestrators can
    go from the critic's optimization on, with the fallback action the
    sample ends on, if it ends on one.  [commit] is what the accepted branch
    calls after the actor's acceptance. *)
Inductive certified_tail (time : R) (commit : list event)
    : list event -> option vec -> Prop :=
| critic_rejected (st : string) (d a : vec) :
    accepted st = false ->
    certified_tail time commit
      ([CriticOptimizeWeights time; ReadCriticStatus st]
         ++ fallback_events d a)
      (Some a)
| actor_rejected (stc sta : string) (d1 a1 d2 a2 : vec) :
    accepted stc = true -> accepted sta = false ->
    certified_tail time commit
      ([CriticOptimizeWeights time; ReadCriticStatus stc; CriticUpdateWeights]
         ++ fallback_events d1 a1
         ++ [ActorOptimizeWeights; ReadActorStatus sta]
         ++ fallback_events d2 a2)
      (Some a2)
| both_accepted (stc sta : string) (d1 a1 : vec) :
    accepted stc = true -> accepted sta = true ->
    certified_tail time commit
      ([CriticOptimizeWeights time; ReadCriticStatus stc; CriticUpdateWeights]
         ++ fallback_events d1 a1
         ++ [ActorOptimizeWeights; ReadActorStatus sta]
         ++ commit)
      None.



Definition reads_critic_accepted (e : event) : bool :=
  match e with ReadCriticStatus st => accepted st | _ => false end.

Definition reads_actor_accepted (e : event) : bool :=
  match e with ReadActorStatus st => accepted st | _ => false end.

(** Both acceptance tests of the sample came out "accepted". *)
Definition sample_accepted (evs : list event) : bool :=
  existsb reads_critic_accepted evs && existsb reads_actor_accepted evs.



(** Calls that optimize the critic or change the weights it uses. *)
Definition is_critic_learning (e : event) : bool :=
  match e with
  | CriticOptimizeWeights _ | CriticUpdateWeights | CriticCacheWeights
  | CriticUpdateAndCacheWeights => true
  | _ => false
  end.



(** No event of [evs] satisfies [p]. *)
Definition none_of (p : event -> bool) (evs : list event) : bool :=
  forallb (fun e => negb (p e)) evs.

(** The calls of the accepted branch after the actor's acceptance. *)
Definition commit_calls (k : variant) : list event :=
  [ActorUpdateAndCacheWeights; ActorUpdateAction; CriticCacheWeights].

(** The calls of one whole cycle, by the class of the controller:
    [RLController.compute_action] (with or without the critic's update),
    [CALFControllerExPost.compute_action] and
    [CALFControllerPredictive.compute_action].  [held] is the action the
    actor holds when the cycle starts. *)
Inductive full_cycle (time : R) (observation target held : vec)
    (is_critic_update : bool) : variant -> list event -> Prop :=
| cycle_rl :
    full_cycle time observation target held is_critic_update RL
      ([CriticUpdateBuffers observation held;
        ActorReceiveObservation observation;
        ActorUpdateTarget target; CriticUpdateTarget target]
         ++ (if is_critic_update
             then [CriticOptimizeWeights time; CriticUpdateAndCacheWeights]
             else [])
         ++ [ActorOptimizeWeights; ActorUpdateAndCacheWeights;
             ActorUpdateAction])
| cycle_expost (tail : list event) (fb : option vec) :
    certified_tail time (commit_calls ExPost) tail fb ->
    full_cycle time observation target held is_critic_update ExPost
      ([CriticUpdateBuffers observation held;
        ActorReceiveObservation observation;
        ActorUpdateTarget target; CriticUpdateTarget target]
         ++ tail)
| cycle_predictive (backfill tail : list event) (fb : option vec) :
    backfill = [] \/ (exists d v, backfill = [CriticCall d v]) ->
    certified_tail time (commit_calls Predictive) tail fb ->
    full_cycle time observation target held is_critic_update Predictive
      ([CriticUpdateBuffers observation held;
        ActorUpdateTarget target; CriticUpdateTarget target]
         ++ backfill
         ++ [ActorReceiveObservation observation]
         ++ tail).

Section Orchestrator.
Context {AInt CInt S C : Type} `{SafeOps S} `{ClockOps C}.

(** The attributes of the actor the controllers read or assign, its
    embedded fallback controller, and the rest of the object. *)
Record Actor : Type := {
  action : vec;
  action_old : vec;
  action_init : vec;
  a_status : string;
  safe_controller : S;
  a_rest : AInt
}.

Record Critic : Type := {
  c_status : string;
  observation_last_good : vec;
  r_prev : fl;
  CALFs : list fl;
  c_clock : C;
  c_rest : CInt
}.

(** The methods of the actor and the critic (modules [actors] and
    [critics]); each acts on its own object. *)
Class Collaborators : Type := {
  actor_receive_observation : vec -> Actor -> Actor;
  actor_update_target : vec -> Actor -> Actor;
  actor_optimize_weights : option R -> Actor -> Actor;
  actor_update_and_cache_weights : Actor -> Actor;
  actor_update_action : option vec -> Actor -> Actor;
  actor_set_action : vec -> Actor -> Actor;
  actor_model_update_and_cache_weights : vec -> Actor -> Actor;
  actor_running_objective : Actor -> vec -> vec -> fl;
  critic_update_buffers : vec -> vec -> Critic -> Critic;
  critic_update_target : vec -> Critic -> Critic;
  critic_optimize_weights : R -> Critic -> Critic;
  critic_update_weights : Critic -> Critic;
  critic_cache_weights : Critic -> Critic;
  critic_update_and_cache_weights : Critic -> Critic;
  critic_restore_weights : Critic -> Critic;
  critic_call : Critic -> vec -> bool -> fl
}.
Context `{Collaborators}.

Record t : Type := {
  kind : variant;
  safe_only : bool;
  actor : Actor;
  critic : Critic;
  clock : C;
  observation_target : vec;
  is_fixed_critic_weights : bool;
  action_bounds : bounds;
  self_action : option vec;
  controller_clock : R;
  sampling_time : R;
  critic_clock : R;
  critic_period : R;
  log : list event
}.

Definition with_actor (f : Actor -> Actor) (s : t) : t :=
  {| kind := kind s; safe_only := safe_only s; actor := f (actor s);
     critic := critic s; clock := clock s;
     observation_target := observation_target s;
     is_fixed_critic_weights := is_fixed_critic_weights s;
     action_bounds := action_bounds s; self_action := self_action s;
     controller_clock := controller_clock s; sampling_time := sampling_time s;
     critic_clock := critic_clock s; critic_period := critic_period s;
     log := log s |}.

Definition with_critic (f : Critic -> Critic) (s : t) : t :=
  {| kind := kind s; safe_only := safe_only s; actor := actor s;
     critic := f (critic s); clock := clock s;
     observation_target := observation_target s;
     is_fixed_critic_weights := is_fixed_critic_weights s;
     action_bounds := action_bounds s; self_action := self_action s;
     controller_clock := controller_clock s; sampling_time := sampling_time s;
     critic_clock := critic_clock s; critic_period := critic_period s;
     log := log s |}.

Definition set_clock (c : C) (s : t) : t :=
  {| kind := kind s; safe_only := safe_only s; actor := actor s;
     critic := critic s; clock := c;
     observation_target := observation_target s;
     is_fixed_critic_weights := is_fixed_critic_weights s;
     action_bounds := action_bounds s; self_action := self_action s;
     controller_clock := controller_clock s; sampling_time := sampling_time s;
     critic_clock := critic_clock s; critic_period := critic_period s;
     log := log s |}.

Definition set_observation_target (tgt : vec) (s : t) : t :=
  {| kind := kind s; safe_only := safe_only s; actor := actor s;
     critic := critic s; clock := clock s;
     observation_target := tgt;
     is_fixed_critic_weights := is_fixed_critic_weights s;
     action_bounds := action_bounds s; self_action := self_action s;
     controller_clock := controller_clock s; sampling_time := sampling_time s;
     critic_clock := critic_clock s; critic_period := critic_period s;
     log := log s |}.

Definition set_self_action (a : vec) (s : t) : t :=
  {| kind := kind s; safe_only := safe_only s; actor := actor s;
     critic := critic s; clock := clock s;
     observation_target := observation_target s;
     is_fixed_critic_weights := is_fixed_critic_weights s;
     action_bounds := action_bounds s; self_action := Some a;
     controller_clock := controller_clock s; sampling_time := sampling_time s;
     critic_clock := critic_clock s; critic_period := critic_period s;
     log := log s |}.

Definition record (e : event) (s : t) : t :=
  {| kind := kind s; safe_only := safe_only s; actor := actor s;
     critic := critic s; clock := clock s;
     observation_target := observation_target s;
     is_fixed_critic_weights := is_fixed_critic_weights s;
     action_bounds := action_bounds s; self_action := self_action s;
     controller_clock := controller_clock s; sampling_time := sampling_time s;
     critic_clock := critic_clock s; critic_period := critic_period s;
     log := log s ++ [e] |}.

#[export] Instance Bounded_t : Bounded t :=
  {| action_bounds_of := action_bounds; store_action := set_self_action |}.

(** Assignments to attributes of the collaborators. *)
Definition set_a_status (st : string) (a : Actor) : Actor :=
  {| action := action a; action_old := action_old a;
     action_init := action_init a; a_status := st;
     safe_controller := safe_controller a; a_rest := a_rest a |}.

Definition set_action_old (v : vec) (a : Actor) : Actor :=
  {| action := action a; action_old := v;
     action_init := action_init a; a_status := a_status a;
     safe_controller := safe_controller a; a_rest := a_rest a |}.

Definition set_safe_controller (x : S) (a : Actor) : Actor :=
  {| action := action a; action_old := action_old a;
     action_init := action_init a; a_status := a_status a;
     safe_controller := x; a_rest := a_rest a |}.

Definition set_c_status (st : string) (c : Critic) : Critic :=
  {| c_status := st; observation_last_good := observation_last_good c;
     r_prev := r_prev c; CALFs := CALFs c; c_clock := c_clock c;
     c_rest := c_rest c |}.

Definition set_observation_last_good (o : vec) (c : Critic) : Critic :=
  {| c_status := c_status c; observation_last_good := o;
     r_prev := r_prev c; CALFs := CALFs c; c_clock := c_clock c;
     c_rest := c_rest c |}.

Definition set_r_prev (x : fl) (c : Critic) : Critic :=
  {| c_status := c_status c; observation_last_good := observation_last_good c;
     r_prev := x; CALFs := CALFs c; c_clock := c_clock c;
     c_rest := c_rest c |}.

Definition set_CALFs (l : list fl) (c : Critic) : Critic :=
  {| c_status := c_status c; observation_last_good := observation_last_good c;
     r_prev := r_prev c; CALFs := l; c_clock := c_clock c;
     c_rest := c_rest c |}.

Definition set_c_clock (k : C) (c : Critic) : Critic :=
  {| c_status := c_status c; observation_last_good := observation_last_good c;
     r_prev := r_prev c; CALFs := CALFs c; c_clock := k;
     c_rest := c_rest c |}.

(** Modelled from the spec: what the orchestrator relies on from the
    actor's [set_action] and [model.update_and_cache_weights], whose code is
    in module [actors]: the first writes the current-action slot, the second
    leaves it alone. *)
Definition action_slot_contract : Prop :=
  (forall a A, action (actor_set_action a A) = a)
  /\ (forall w A, action (actor_model_update_and_cache_weights w A) = action A).

(** A method call on the actor or the critic, recorded in the log. *)
Definition call_actor (e : event) (f : Actor -> Actor) : M t unit :=
  modify (fun s => record e (with_actor f s)).

Definition call_critic (e : event) (f : Critic -> Critic) : M t unit :=
  modify (fun s => record e (with_critic f s)).

(** A method call on [self.actor.safe_controller]. *)
Definition on_safe {A} (m : M S A) : M t A :=
  fun s => let (r, x) := m (safe_controller (actor s)) in
           (r, with_actor (set_safe_controller x) s).

(** [a - b] on arrays. *)
Definition array_sub (a b : vec) : M t vec :=
  lift_opt ValueError (zip_with fsub a b).

(** [invoke_safe_action] *)
Definition invoke_safe_action (observation : vec) : M t unit :=
  call_critic CriticRestoreWeights critic_restore_weights ;;;
  self <- get ;;
  d <- array_sub observation (observation_target self) ;;
  a <- on_safe (safe_compute_action d) ;;
  modify (record (SafeComputeAction d a)) ;;;
  call_actor (ActorSetAction a) (actor_set_action a) ;;;
  call_actor (ActorModelUpdateAndCacheWeights a)
             (actor_model_update_and_cache_weights a) ;;;
  self <- get ;;
  modify (with_critic
            (set_r_prev
               (fadd (r_prev (critic self))
                     (actor_running_objective (actor self) observation a)))).

(** Reading [critic.weights_acceptance_status == "accepted"]. *)
Definition critic_weights_accepted : M t bool :=
  self <- get ;;
  modify (record (ReadCriticStatus (c_status (critic self)))) ;;;
  ret (accepted (c_status (critic self))).

Definition actor_weights_accepted : M t bool :=
  self <- get ;;
  modify (record (ReadActorStatus (a_status (actor self)))) ;;;
  ret (accepted (a_status (actor self))).

Definition current_action : M t vec :=
  self <- get ;; ret (action (actor self)).

(** [RLController.compute_action], before the decorator. *)
Definition rl_compute_action_body (observation : vec) (is_critic_update : bool)
    (time : R) (observation_target : vec) : M t vec :=
  self <- get ;;
  call_critic (CriticUpdateBuffers observation (action (actor self)))
              (critic_update_buffers observation (action (actor self))) ;;;
  call_actor (ActorReceiveObservation observation)
             (actor_receive_observation observation) ;;;
  call_actor (ActorUpdateTarget observation_target)
             (actor_update_target observation_target) ;;;
  call_critic (CriticUpdateTarget observation_target)
              (critic_update_target observation_target) ;;;
  (if is_critic_update
   then call_critic (CriticOptimizeWeights time)
                    (critic_optimize_weights time) ;;;
        call_critic CriticUpdateAndCacheWeights
                    critic_update_and_cache_weights
   else ret tt) ;;;
  call_actor ActorOptimizeWeights (actor_optimize_weights None) ;;;
  call_actor ActorUpdateAndCacheWeights actor_update_and_cache_weights ;;;
  call_actor ActorUpdateAction (actor_update_action (Some observation)) ;;;
  current_action.

(** [CALFControllerExPost.compute_action]; [apply_callbacks] only
    notifies observers. *)
Definition expost_compute_action (observation : vec) (is_critic_update : bool)
    (time : R) (observation_target : vec) : M t vec :=
  self <- get ;;
  call_critic (CriticUpdateBuffers observation (action (actor self)))
              (critic_update_buffers observation (action (actor self))) ;;;
  call_actor (ActorReceiveObservation observation)
             (actor_receive_observation observation) ;;;
  call_actor (ActorUpdateTarget observation_target)
             (actor_update_target observation_target) ;;;
  call_critic (CriticUpdateTarget observation_target)
              (critic_update_target observation_target) ;;;
  call_critic (CriticOptimizeWeights time) (critic_optimize_weights time) ;;;
  critic_ok <- critic_weights_accepted ;;
  (if critic_ok : bool
   then
     call_critic CriticUpdateWeights critic_update_weights ;;;
     invoke_safe_action observation ;;;
     call_actor ActorOptimizeWeights (actor_optimize_weights (Some time)) ;;;
     actor_ok <- actor_weights_accepted ;;
     if actor_ok : bool
     then
       call_actor ActorUpdateAndCacheWeights actor_update_and_cache_weights ;;;
       call_actor ActorUpdateAction (actor_update_action None) ;;;
       modify (with_critic (set_observation_last_good observation)) ;;;
       call_critic CriticCacheWeights critic_cache_weights ;;;
       self <- get ;;
       modify (with_critic
                 (set_r_prev
                    (actor_running_objective (actor self) observation
                                             (action (actor self)))))
     else invoke_safe_action observation
   else invoke_safe_action observation) ;;;
  current_action.

(** The block of [CALFControllerPredictive.compute_action] that runs when
    the weights of the previous sample were accepted. *)
Definition predictive_backfill (observation observation_target : vec)
    : M t unit :=
  self <- get ;;
  if accepted (a_status (actor self))
  then
    modify (with_critic (set_observation_last_good observation)) ;;;
    modify (with_critic (set_c_status "rejected")) ;;;
    modify (with_actor (set_a_status "rejected")) ;;;
    self <- get ;;
    match CALFs (critic self) with
    | [] => ret tt
    | _ :: _ =>
        d <- array_sub (observation_last_good (critic self))
                       observation_target ;;
        let v := critic_call (critic self) d true in
        modify (record (CriticCall d v)) ;;;
        modify (with_critic (set_CALFs (set_last v (CALFs (critic self)))))
    end
  else ret tt.

(** [CALFControllerPredictive.compute_action] *)
Definition predictive_compute_action (observation : vec)
    (is_critic_update : bool) (time : R) (observation_target : vec)
    : M t vec :=
  self <- get ;;
  call_critic (CriticUpdateBuffers observation (action (actor self)))
              (critic_update_buffers observation (action (actor self))) ;;;
  call_actor (ActorUpdateTarget observation_target)
             (actor_update_target observation_target) ;;;
  call_critic (CriticUpdateTarget observation_target)
              (critic_update_target observation_target) ;;;
  predictive_backfill observation observation_target ;;;
  call_actor (ActorReceiveObservation observation)
             (actor_receive_observation observation) ;;;
  call_critic (CriticOptimizeWeights time) (critic_optimize_weights time) ;;;
  critic_ok <- critic_weights_accepted ;;
  (if critic_ok : bool
   then
     call_critic CriticUpdateWeights critic_update_weights ;;;
     invoke_safe_action observation ;;;
     call_actor ActorOptimizeWeights (actor_optimize_weights (Some time)) ;;;
     actor_ok <- actor_weights_accepted ;;
     if actor_ok : bool
     then
       call_actor ActorUpdateAndCacheWeights actor_update_and_cache_weights ;;;
       call_actor ActorUpdateAction (actor_update_action None) ;;;
       call_critic CriticCacheWeights critic_cache_weights
     else invoke_safe_action observation
   else invoke_safe_action observation) ;;;
  current_action.

(** [self.compute_action(...)] as the class of the object resolves it. *)
Definition compute_action (observation : vec) (is_critic_update : bool)
    (time : R) (observation_target : vec) : M t vec :=
  self <- get ;;
  match kind self with
  | RL => apply_action_bounds
            (rl_compute_action_body observation is_critic_update time
                                    observation_target)
  | ExPost => expost_compute_action observation is_critic_update time
                                    observation_target
  | Predictive => predictive_compute_action observation is_critic_update time
                                            observation_target
  end.

(** [Controller.compute_action_sampled], before the decorator. *)
Definition sampled_body (time : R) (observation observation_target : vec)
    : M t vec :=
  modify (set_observation_target observation_target) ;;;
  self <- get ;;
  let (is_time_for_new_sample, c) := check_time time (clock self) in
  modify (set_clock c) ;;;
  let (is_time_for_critic_update, k) :=
    check_time time (c_clock (critic self)) in
  modify (with_critic (set_c_clock k)) ;;;
  let is_critic_update :=
    is_time_for_critic_update && negb (is_fixed_critic_weights self) in
  (if is_time_for_new_sample
   then compute_action observation is_critic_update time observation_target
          ;;; ret tt
   else ret tt) ;;;
  current_action.

(** The controller as [compute_action] finds it at a tick: the target
    stored and both clocks consulted. *)
Definition at_tick (time : R) (observation_target : vec) (s : t) : t :=
  with_critic (set_c_clock (snd (check_time time (c_clock (critic s)))))
    (set_clock (snd (check_time time (clock s)))
       (set_observation_target observation_target s)).

(** The flag [is_critic_update] of a tick. *)
Definition critic_update_due (time : R) (s : t) : bool :=
  fst (check_time time (c_clock (critic s)))
  && negb (is_fixed_critic_weights s).

Definition controller_compute_action_sampled (time : R)
    (observation observation_target : vec) : M t vec :=
  apply_action_bounds (sampled_body time observation observation_target).

(** [compute_action_sampled] as looked up on the object: with
    [safe_only=True] the constructor of [CALFControllerExPost] rebinds the
    attribute to the bound method of [actor.safe_controller]. *)
Definition compute_action_sampled (time : R)
    (observation observation_target : vec) : M t vec :=
  self <- get ;;
  if safe_only self
  then on_safe (safe_compute_action_sampled time observation)
  else controller_compute_action_sampled time observation observation_target.

(** [RLController.reset] *)
Definition reset (s : t) : t :=
  with_actor (fun a => set_action_old (action_init a) a)
    (with_critic (fun c => set_c_clock (clock_reset (c_clock c)) c)
       (set_clock (clock_reset (clock s)) s)).

(** Driving a controller through a sequence of ticks. *)
Fixpoint run_sampled (ticks : list (R * vec * vec)) (s : t)
    : list (res vec) * t :=
  match ticks with
  | [] => ([], s)
  | (time, observation, target) :: rest =>
      let (r, s1) := compute_action_sampled time observation target s in
      let (rs, s2) := run_sampled rest s1 in
      (r :: rs, s2)
  end.

Fixpoint run_safe (ticks : list (R * vec * vec)) (x : S)
    : list (res vec) * S :=
  match ticks with
  | [] => ([], x)
  | (time, observation, target) :: rest =>
      let (r, x1) := safe_compute_action_sampled time observation x in
      let (rs, x2) := run_safe rest x1 in
      (r :: rs, x2)
  end.

End Orchestrator.
Arguments Actor : clear implicits.
Arguments Critic : clear implicits.
Arguments Collaborators : clear implicits.
Arguments t : clear implicits.
End CALF.

(* ------------------------------------------------------------------ *)
(** ** Reference collaborators *)

Module Ref.
Import CALF.

(** Modelled from the spec: the actor of module [actors], which is not part
    of the sources at hand.  It records the observation and the target,
    keeps cached and candidate weights, produces a candidate without
    touching the cached weights, promotes the candidate on
    [update_and_cache_weights], and synthesizes its action from the cached
    weights.  The solver is a black box: its successive outcomes (status and
    candidate) are listed in [a_solver]; when it has nothing to offer the
    candidate stays equal to the cached weights. *)
Record ActorRest : Type := {
  a_observation : vec;
  a_target : vec;
  a_cached : vec;
  a_candidate : vec;
  a_solver : list (string * vec)
}.

(** Modelled from the spec: the critic of module [critics], which is not
    part of the sources at hand.  It buffers (observation, action) pairs,
    keeps the weights in effect, the cached (last known-good) weights and a
    candidate; [update_weights] puts the candidate in effect,
    [cache_weights] commits the weights in effect, [restore_weights] reverts
    to the committed ones. *)
Record CriticRest : Type := {
  c_buffer : list (vec * vec);
  c_target : vec;
  c_weights : vec;
  c_cached : vec;
  c_candidate : vec;
  c_solver : list (string * vec)
}.

Section Instance.
Context {S C : Type}.

Abbreviation Actor := (CALF.Actor ActorRest S).
Abbreviation Critic := (CALF.Critic CriticRest C).

Definition with_a_rest (f : ActorRest -> ActorRest) (a : Actor) : Actor :=
  {| action := action a; action_old := action_old a;
     action_init := action_init a; a_status := a_status a;
     safe_controller := safe_controller a; a_rest := f (a_rest a) |}.

Definition with_c_rest (f : CriticRest -> CriticRest) (c : Critic) : Critic :=
  {| c_status := c_status c; observation_last_good := observation_last_good c;
     r_prev := r_prev c; CALFs := CALFs c; c_clock := c_clock c;
     c_rest := f (c_rest c) |}.

Definition put_action (v : vec) (a : Actor) : Actor :=
  {| action := v; action_old := action_old a;
     action_init := action_init a; a_status := a_status a;
     safe_controller := safe_controller a; a_rest := a_rest a |}.

Definition sum_squares (v : vec) : fl :=
  fold_right (fun x acc => fadd (fmul x x) acc) (Fin 0) v.

Definition weighted (w v : vec) : fl :=
  fold_right (fun p acc => fadd (fmul (fst p) (fmul (snd p) (snd p))) acc)
             (Fin 0) (combine w v).

Definition ref_actor_optimize (a : Actor) : Actor :=
  match a_solver (a_rest a) with
  | [] =>
      set_a_status "rejected"
        (with_a_rest (fun r =>
           {| a_observation := a_observation r; a_target := a_target r;
              a_cached := a_cached r; a_candidate := a_cached r;
              a_solver := [] |}) a)
  | (st, w) :: more =>
      set_a_status st
        (with_a_rest (fun r =>
           {| a_observation := a_observation r; a_target := a_target r;
              a_cached := a_cached r; a_candidate := w;
              a_solver := more |}) a)
  end.

Definition ref_critic_optimize (c : Critic) : Critic :=
  match c_solver (c_rest c) with
  | [] =>
      set_c_status "rejected"
        (with_c_rest (fun r =>
           {| c_buffer := c_buffer r; c_target := c_target r;
              c_weights := c_weights r; c_cached := c_cached r;
              c_candidate := c_cached r; c_solver := [] |}) c)
  | (st, w) :: more =>
      set_c_status st
        (with_c_rest (fun r =>
           {| c_buffer := c_buffer r; c_target := c_target r;
              c_weights := c_weights r; c_cached := c_cached r;
              c_candidate := w; c_solver := more |}) c)
  end.

#[export] Instance collaborators : CALF.Collaborators ActorRest CriticRest S C :=
  {| actor_receive_observation := fun o =>
       with_a_rest (fun r =>
         {| a_observation := o; a_target := a_target r;
            a_cached := a_cached r; a_candidate := a_candidate r;
            a_solver := a_solver r |});
     actor_update_target := fun g =>
       with_a_rest (fun r =>
         {| a_observation := a_observation r; a_target := g;
            a_cached := a_cached r; a_candidate := a_candidate r;
            a_solver := a_solver r |});
     actor_optimize_weights := fun _ => ref_actor_optimize;
     actor_update_and_cache_weights :=
       with_a_rest (fun r =>
         {| a_observation := a_observation r; a_target := a_target r;
            a_cached := a_candidate r; a_candidate := a_candidate r;
            a_solver := a_solver r |});
     actor_update_action := fun _ a => put_action (a_cached (a_rest a)) a;
     actor_set_action := put_action;
     actor_model_update_and_cache_weights := fun w =>
       with_a_rest (fun r =>
         {| a_observation := a_observation r; a_target := a_target r;
            a_cached := w; a_candidate := a_candidate r;
            a_solver := a_solver r |});
     actor_running_objective := fun _ o u => fadd (sum_squares o) (sum_squares u);
     critic_update_buffers := fun o u =>
       with_c_rest (fun r =>
         {| c_buffer := c_buffer r ++ [(o, u)]; c_target := c_target r;
            c_weights := c_weights r; c_cached := c_cached r;
            c_candidate := c_candidate r; c_solver := c_solver r |});
     critic_update_target := fun g =>
       with_c_rest (fun r =>
         {| c_buffer := c_buffer r; c_target := g;
            c_weights := c_weights r; c_cached := c_cached r;
            c_candidate := c_candidate r; c_solver := c_solver r |});
     critic_optimize_weights := fun _ => ref_critic_optimize;
     critic_update_weights :=
       with_c_rest (fun r =>
         {| c_buffer := c_buffer r; c_target := c_target r;
            c_weights := c_candidate r; c_cached := c_cached r;
            c_candidate := c_candidate r; c_solver := c_solver r |});
     critic_cache_weights :=
       with_c_rest (fun r =>
         {| c_buffer := c_buffer r; c_target := c_target r;
            c_weights := c_weights r; c_cached := c_weights r;
            c_candidate := c_candidate r; c_solver := c_solver r |});
     critic_update_and_cache_weights :=
       with_c_rest (fun r =>
         {| c_buffer := c_buffer r; c_target := c_target r;
            c_weights := c_candidate r; c_cached := c_candidate r;
            c_candidate := c_candidate r; c_solver := c_solver r |});
     critic_restore_weights :=
       with_c_rest (fun r =>
         {| c_buffer := c_buffer r; c_target := c_target r;
            c_weights := c_cached r; c_cached := c_cached r;
            c_candidate := c_candidate r; c_solver := c_solver r |});
     critic_call := fun c o stored =>
       weighted (if stored then c_cached (c_rest c) else c_weights (c_rest c)) o
  |}.

End Instance.

(** A two-channel controller on a planar point, with [ControllerKinPoint]
    as its fallback: sampling period 1 from time 0, targets and
    observations of dimension two. *)
Definition kin_point : KinPoint.t RefClock :=
  KinPoint.init (Fin 1) BoundsNone 0 1 (new_clock 1 0).

Definition demo_actor (st : string) (solver : list (string * vec))
    : CALF.Actor ActorRest (KinPoint.t RefClock) :=
  {| action := [Fin 0; Fin 0]; action_old := [Fin 0; Fin 0];
     action_init := [Fin 0; Fin 0]; a_status := st;
     safe_controller := kin_point;
     a_rest := {| a_observation := []; a_target := [];
                  a_cached := [Fin 0; Fin 0]; a_candidate := [Fin 0; Fin 0];
                  a_solver := solver |} |}.

Definition demo_critic (st : string) (calfs : list fl)
    (solver : list (string * vec)) : CALF.Critic CriticRest RefClock :=
  {| c_status := st; observation_last_good := [Fin 0; Fin 0];
     r_prev := Fin 0; CALFs := calfs; c_clock := new_clock 1 0;
     c_rest := {| c_buffer := []; c_target := [];
                  c_weights := [Fin 1; Fin 1]; c_cached := [Fin 1; Fin 1];
                  c_candidate := [Fin 1; Fin 1]; c_solver := solver |} |}.

Definition state : Type :=
  CALF.t ActorRest CriticRest (KinPoint.t RefClock) RefClock.

Definition demo (k : variant) (only_safe : bool) (b : bounds)
    (a : CALF.Actor ActorRest (KinPoint.t RefClock))
    (c : CALF.Critic CriticRest RefClock) : state :=
  {| kind := k; safe_only := only_safe; actor := a; critic := c;
     clock := new_clock 1 0; observation_target := [Fin 0; Fin 0];
     is_fixed_critic_weights := false; action_bounds := b;
     self_action := None; controller_clock := 0; sampling_time := 1;
     critic_clock := 0; critic_period := 1; log := [] |}.

(** [RLController(...)] constructed without [action_bounds], which then
    keeps its default [None]. *)
Definition default_bounds : state :=
  demo ExPost false BoundsNone (demo_actor "pending" [])
       (demo_critic "pending" [] []).

(** The controller constructed with [safe_only=True]. *)
Definition only_safe : state :=
  demo ExPost true BoundsEmpty (demo_actor "pending" [])
       (demo_critic "pending" [] []).

(** An ExPost controller whose fallback is the default-constructed NI
    controller, on observations and targets of dimension three. *)
Definition ni_backed : CALF.t ActorRest CriticRest (NI.t RefClock) RefClock :=
  {| kind := ExPost; safe_only := false;
     actor := {| action := [Fin 0; Fin 0]; action_old := [Fin 0; Fin 0];
                 action_init := [Fin 0; Fin 0]; a_status := "pending";
                 safe_controller := ni_unbounded;
                 a_rest := {| a_observation := []; a_target := [];
                              a_cached := [Fin 0; Fin 0];
                              a_candidate := [Fin 0; Fin 0];
                              a_solver := [] |} |};
     critic := demo_critic "pending" [] [];
     clock := new_clock 1 0;
     observation_target := [Fin 0; Fin 0; Fin 0];
     is_fixed_critic_weights := false; action_bounds := BoundsEmpty;
     self_action := None; controller_clock := 0; sampling_time := 1;
     critic_clock := 0; critic_period := 1; log := [] |}.

(** An ExPost controller with both channels bounded to [-1, 1]. *)
Definition bounded : state :=
  demo ExPost false (BoundsArray [(Fin (-1), Fin 1); (Fin (-1), Fin 1)])
       (demo_actor "pending" []) (demo_critic "pending" [] []).

(** A sample in which both candidates are accepted. *)
Definition both_pass : state :=
  demo ExPost false BoundsEmpty
       (demo_actor "pending" [("accepted"%string, [Fin 3; Fin 3])])
       (demo_critic "pending" [] [("accepted"%string, [Fin 2; Fin 2])]).

(** [RLController] with [is_fixed_critic_weights=True]. *)
Definition rl_fixed_critic : state :=
  {| kind := RL; safe_only := false;
     actor := demo_actor "pending" [];
     critic := demo_critic "pending" [] [];
     clock := new_clock 1 0; observation_target := [Fin 0; Fin 0];
     is_fixed_critic_weights := true; action_bounds := BoundsEmpty;
     self_action := None; controller_clock := 0; sampling_time := 1;
     critic_clock := 0; critic_period := 1; log := [] |}.

(** A sample in which the critic's solver has nothing acceptable. *)
Definition critic_fails : state :=
  demo ExPost false BoundsEmpty (demo_actor "pending" [])
       (demo_critic "pending" [] []).

(** A sample in which the critic's candidate is accepted and the actor's is
    not. *)
Definition actor_fails : state :=
  demo ExPost false BoundsEmpty
       (demo_actor "pending" [("rejected"%string, [Fin 3; Fin 3])])
       (demo_critic "pending" [] [("accepted"%string, [Fin 2; Fin 2])]).

(** Predictive controller after a sample in which both were accepted. *)
Definition after_accepted : state :=
  demo Predictive false BoundsEmpty (demo_actor "accepted" [])
       (demo_critic "accepted" [Fin 5] []).

(** Predictive controller after a sample in which the critic was accepted
    and the actor was not. *)
Definition after_actor_rejected : state :=
  demo Predictive false BoundsEmpty (demo_actor "rejected" [])
       (demo_critic "accepted" [Fin 5] []).

End Ref.
(* ------------------------------------------------------------------ *)
(** ** Facts about the scalars *)

Lemma is_zero_true (r : R) : r = 0 -> is_zero r = true.
Proof. intros E. unfold is_zero. destruct (Req_dec_T r 0); congruence. Qed.

Lemma is_zero_false (r : R) : r <> 0 -> is_zero r = false.
Proof. intros E. unfold is_zero. destruct (Req_dec_T r 0); congruence. Qed.

Lemma is_neg_true (r : R) : r < 0 -> is_neg r = true.
Proof. intros E. unfold is_neg. destruct (Rlt_dec r 0); [reflexivity | lra]. Qed.

Lemma is_neg_false (r : R) : 0 <= r -> is_neg r = false.
Proof. intros E. unfold is_neg. destruct (Rlt_dec r 0); [lra | reflexivity]. Qed.

Lemma fdiv_zero_zero : fdiv (Fin 0) (Fin 0) = NaN.
Proof. simpl. now rewrite is_zero_true. Qed.

(** Bringing a real expression built from the constants of the source to
    normal form. *)
Ltac real_norm :=
  repeat first
    [ rewrite cos_0 | rewrite sin_0 | rewrite Rabs_R0 | rewrite sqrt_0
    | rewrite Rmult_0_l | rewrite Rmult_0_r | rewrite Rplus_0_l
    | rewrite Rplus_0_r | rewrite Ropp_0 | rewrite Rmult_1_r
    | rewrite Rmult_1_l ].

Ltac decide_zero :=
  repeat first
    [ rewrite is_zero_true by (real_norm; lra)
    | rewrite is_zero_false by (real_norm; lra)
    | rewrite is_neg_false by (real_norm; lra)
    | rewrite is_neg_true by (real_norm; lra) ].

Lemma fsqrt_zero : fsqrt (Fin 0) = Fin 0.
Proof. simpl. rewrite is_neg_false by lra. now rewrite sqrt_0. Qed.

Lemma fsign_zero : fsign (Fin 0) = Fin 0.
Proof. simpl. now rewrite is_zero_true. Qed.

Lemma fcbrt_zero : fcbrt (Fin 0) = Fin 0.
Proof. simpl. now rewrite is_zero_true. Qed.

Ltac fl_norm :=
  repeat (cbn [fadd fsub fneg fmul fabs fcos fsin fpow feq0 fst snd
               NI.v0 NI.v1 NI.v2 andb];
          real_norm;
          rewrite ?fsqrt_zero, ?fsign_zero, ?fcbrt_zero, ?fdiv_zero_zero).

(* ------------------------------------------------------------------ *)
(** ** The guard of [Controller3WRobotNIDisassembledCLF._zeta] *)

Module NIFacts.
Import NI.

Lemma Cart2NH_axis (y : R) :
  Cart2NH [Fin 0; Fin y; Fin 0] = Ok (on_axis y).
Proof.
  unfold Cart2NH, on_axis, two. cbn [fadd fmul fsub fneg fcos fsin].
  f_equal. f_equal; f_equal; real_norm; lra.
Qed.

Lemma Cart2NH_planar_origin (angle : R) :
  Cart2NH [Fin 0; Fin 0; Fin angle]
  = Ok {| v0 := Fin angle; v1 := Fin 0; v2 := Fin 0 |}.
Proof.
  unfold Cart2NH, two. cbn [fadd fmul fsub fneg fcos fsin].
  f_equal. f_equal; f_equal; real_norm; lra.
Qed.

Lemma guard_axis (y : R) : guard (on_axis y) = true.
Proof.
  unfold guard, on_axis. cbn [v0 v1 feq0].
  now rewrite is_zero_true.
Qed.

Lemma zeta_axis (y : R) : zeta (on_axis y) = nablaF (on_axis y) (Fin 0).
Proof. unfold zeta. now rewrite guard_axis. Qed.

Lemma zeta_origin :
  zeta {| v0 := Fin 0; v1 := Fin 0; v2 := Fin 0 |}
  = {| v0 := NaN; v1 := NaN; v2 := NaN |}.
Proof.
  unfold zeta, guard. cbn [v0 v1 feq0].
  rewrite is_zero_true by reflexivity. cbn [andb].
  unfold nablaF, sigma_tilde, two, three, four.
  fl_norm. reflexivity.
Qed.

Lemma kappa_origin :
  kappa {| v0 := Fin 0; v1 := Fin 0; v2 := Fin 0 |} = (NaN, NaN).
Proof. unfold kappa. rewrite zeta_origin. reflexivity. Qed.

End NIFacts.

Section NICompute.
Import NI NIFacts.
Context {C : Type} `{ClockOps C}.

Lemma compute_action_unclipped (s : NI.t C) (observation : vec) (xNI : V3) :
  Cart2NH observation = Ok xNI ->
  action_bounds s = BoundsEmpty ->
  fst (compute_action observation s) = Ok (NI.body_action s xNI).
Proof.
  intros E B.
  unfold compute_action, apply_action_bounds, compute_action_body, compute_LF,
    bind, lift_opt, modify, get, ret.
  rewrite E. cbn. unfold NI.body_action. rewrite B. reflexivity.
Qed.

End NICompute.

(** C8 (as amended).  The guard of [_zeta] is on the transformed
    coordinates: for every observation with [x = 0] and [angle = 0] (so that
    [xNI[0] = xNI[1] = 0]) the transform succeeds, [_zeta] returns the
    [theta = 0] gradient [nablaF], and [compute_action] (with [action_bounds]
    the empty list) returns, without raising, the action built from that
    gradient. *)
Theorem C8_zeta_guard_on_transformed_axis
    (C : Type) (K : ClockOps C) (s : NI.t C) (y : R) :
  NI.action_bounds s = BoundsEmpty ->
  exists xNI,
    NI.Cart2NH [Fin 0; Fin y; Fin 0] = Ok xNI
    /\ NI.guard xNI = true
    /\ NI.zeta xNI = NI.nablaF xNI (Fin 0)
    /\ fst (NI.compute_action [Fin 0; Fin y; Fin 0] s)
       = Ok (NI.body_action s xNI).
Proof.
  intros B.
  exists (NI.on_axis y).
  split; [apply NIFacts.Cart2NH_axis |].
  split; [apply NIFacts.guard_axis |].
  split; [apply NIFacts.zeta_axis |].
  apply compute_action_unclipped; [apply NIFacts.Cart2NH_axis | exact B].
Qed.

Lemma C8_zeta_guard_on_transformed_axis_witness :
  exists xNI,
    NI.Cart2NH [Fin 0; Fin 1; Fin 0] = Ok xNI
    /\ NI.guard xNI = true
    /\ NI.zeta xNI = NI.nablaF xNI (Fin 0)
    /\ fst (NI.compute_action [Fin 0; Fin 1; Fin 0] ni_default)
       = Ok (NI.body_action ni_default xNI).
Proof.
  apply (C8_zeta_guard_on_transformed_axis RefClock RefClockOps ni_default 1).
  reflexivity.
Defined.

(** C8 (as stated) fails.  At the planar origin with heading [1] the guard
    is not taken, and at the planar origin with heading [0], where it is
    taken, the returned action is [nan] in both channels. *)
Lemma C8_planar_origin_counterexample :
  (exists xNI, NI.Cart2NH [Fin 0; Fin 0; Fin 1] = Ok xNI
               /\ NI.guard xNI = false)
  /\ (exists a, fst (NI.compute_action [Fin 0; Fin 0; Fin 0] ni_default) = Ok a
                /\ a = [NaN; NaN] /\ ~ all_fin a).
Proof.
  split.
  - eexists; split; [apply NIFacts.Cart2NH_planar_origin |].
    unfold NI.guard. cbn [NI.v0 NI.v1 feq0].
    rewrite (is_zero_false 1) by lra. reflexivity.
  - eexists; split; [| split].
    + apply compute_action_unclipped;
        [apply NIFacts.Cart2NH_planar_origin | reflexivity].
    + unfold NI.body_action. rewrite NIFacts.kappa_origin. reflexivity.
    + unfold NI.body_action. rewrite NIFacts.kappa_origin. cbn.
      intros F. inversion F as [| ? ? F0 _]. exact F0.
Qed.

(* ------------------------------------------------------------------ *)
(** ** The fallback path of the orchestrator *)

Ltac unfold_m :=
  unfold CALF.call_critic, CALF.call_actor, CALF.array_sub, CALF.on_safe,
    CALF.critic_weights_accepted, CALF.actor_weights_accepted,
    CALF.current_action, bind, modify, get, ret, lift_opt, raise in *.

Section Fallback.
Import CALF.
Context {AInt CInt S C : Type} `{SafeOps S} `{ClockOps C}
        `{CALF.Collaborators AInt CInt S C}.

Abbreviation state := (CALF.t AInt CInt S C).

(** What one call of [invoke_safe_action] does, step by step. *)
Lemma invoke_safe_action_run (s s' : state) (observation : vec) :
  invoke_safe_action observation s = (Ok tt, s') ->
  exists d a x,
    zip_with fsub observation (observation_target s) = Some d
    /\ safe_compute_action d (safe_controller (actor s)) = (Ok a, x)
    /\ log s' = log s ++ [CriticRestoreWeights; SafeComputeAction d a;
                          ActorSetAction a; ActorModelUpdateAndCacheWeights a]
    /\ actor s' = actor_model_update_and_cache_weights a
                    (actor_set_action a
                       (set_safe_controller x (actor s)))
    /\ critic s' = set_r_prev
                     (fadd (r_prev (critic_restore_weights (critic s)))
                           (actor_running_objective (actor s') observation a))
                     (critic_restore_weights (critic s))
    /\ observation_target s' = observation_target s.
Proof.
  unfold invoke_safe_action. unfold_m. cbn.
  destruct (zip_with fsub observation (observation_target s)) as [d |] eqn:D;
    cbn; [| discriminate].
  destruct (safe_compute_action d (safe_controller (actor s)))
    as [[a | e] x] eqn:E; cbn; [| discriminate].
  intros R. injection R as <-. exists d, a, x. cbn.
  repeat split; try reflexivity; try assumption.
  now rewrite <- !app_assoc.
Qed.

Lemma invoke_safe_action_log (s s' : state) (observation : vec) :
  invoke_safe_action observation s = (Ok tt, s') ->
  exists d a,
    log s' = log s ++ fallback_events d a
    /\ (action_slot_contract -> action (actor s') = a).
Proof.
  intros R.
  destruct (invoke_safe_action_run _ _ _ R)
    as (d & a & x & _ & _ & L & A & _).
  exists d, a. split; [exact L |].
  intros [SetA Frame]. rewrite A, Frame, SetA. reflexivity.
Qed.

Ltac split_safe_call :=
  match goal with
  | |- context [invoke_safe_action ?o ?x] =>
      let s1 := fresh "s" in
      let I1 := fresh "I" in
      let d := fresh "d" in
      let a := fresh "a" in
      let L := fresh "L" in
      let A := fresh "A" in
      destruct (invoke_safe_action o x) as [[[] | ?] s1] eqn:I1;
      cbn -[invoke_safe_action]; [| discriminate];
      destruct (invoke_safe_action_log _ _ _ I1) as (d & a & L & A);
      cbn in L
  end.

Ltac split_status :=
  match goal with
  | |- context [accepted ?st] =>
      let E := fresh "Acc" in destruct (accepted st) eqn:E
  end.

Ltac close_sample fb :=
  let R := fresh "R" in
  intros R; injection R as <- <-;
  eexists; exists fb;
  split;
  [ cbn;
    repeat match goal with L : log _ = _ |- _ => rewrite L; clear L end;
    cbn; rewrite <- ?app_assoc; cbn; reflexivity
  | split;
    [ first [ apply both_accepted; assumption
            | apply actor_rejected; assumption
            | apply critic_rejected; assumption ]
    | split;
      [ reflexivity
      | first [ intros ? ? ?; discriminate
              | let u := fresh "u" in
                let U := fresh "U" in
                let K := fresh "K" in
                intros K u U; injection U as <-; auto ] ] ] ].

(** The shape of a sample of [CALFControllerExPost.compute_action]. *)
Lemma expost_sample (s s' : state) (observation target : vec)
    (icu : bool) (time : R) (a : vec) :
  expost_compute_action observation icu time target s = (Ok a, s') ->
  exists tail fb,
    log s' = log s
             ++ [CriticUpdateBuffers observation (action (actor s));
                 ActorReceiveObservation observation;
                 ActorUpdateTarget target; CriticUpdateTarget target]
             ++ tail
    /\ certified_tail time (commit_calls ExPost) tail fb
    /\ a = action (actor s')
    /\ (action_slot_contract -> forall u, fb = Some u -> a = u).
Proof.
  unfold expost_compute_action. unfold_m.
  cbn -[invoke_safe_action].
  split_status.
  - split_safe_call. split_status.
    + close_sample (@None vec).
    + split_safe_call. close_sample (Some a1).
  - split_safe_call. close_sample (Some a0).
Qed.

(** What the backfill block of the Predictive variant does. *)
Lemma predictive_backfill_run (s s' : state) (observation target : vec) :
  predictive_backfill observation target s = (Ok tt, s') ->
  if accepted (a_status (actor s))
  then
    actor s' = set_a_status "rejected" (actor s)
    /\ c_status (critic s') = "rejected"%string
    /\ observation_last_good (critic s') = observation
    /\ match CALFs (critic s) with
       | [] => log s' = log s /\ CALFs (critic s') = []
       | _ :: _ =>
           exists d,
             zip_with fsub observation target = Some d
             /\ log s' = log s
                  ++ [CriticCall d
                        (critic_call
                           (set_c_status "rejected"
                              (set_observation_last_good observation
                                 (critic s))) d true)]
             /\ CALFs (critic s')
                = set_last
                    (critic_call
                       (set_c_status "rejected"
                          (set_observation_last_good observation (critic s)))
                       d true)
                    (CALFs (critic s))
       end
  else s' = s.
Proof.
  unfold predictive_backfill. unfold_m. cbn.
  destruct (accepted (a_status (actor s))); cbn.
  - destruct (CALFs (critic s)) as [| c0 cs] eqn:E; cbn.
    + intros R. injection R as <-. cbn. repeat split; assumption.
    + destruct (zip_with fsub observation target) as [d |]; cbn;
        [| discriminate].
      intros R. injection R as <-. cbn. repeat split.
      exists d. repeat split.
  - intros R. now injection R as <-.
Qed.

Lemma predictive_backfill_log (s s' : state) (observation target : vec) :
  predictive_backfill observation target s = (Ok tt, s') ->
  exists evs,
    log s' = log s ++ evs
    /\ (evs = [] \/ exists d v, evs = [CriticCall d v]).
Proof.
  intros R. apply predictive_backfill_run in R.
  destruct (accepted (a_status (actor s))).
  - destruct R as (_ & _ & _ & R).
    destruct (CALFs (critic s)).
    + exists []. rewrite app_nil_r. split; [apply R | now left].
    + destruct R as (d & _ & L & _). eexists; split; [exact L |].
      right. now do 2 eexists.
  - subst s'. exists []. rewrite app_nil_r. split; [reflexivity | now left].
Qed.

(** The shape of a sample of [CALFControllerPredictive.compute_action]. *)
Lemma predictive_sample (s s' : state) (observation target : vec)
    (icu : bool) (time : R) (a : vec) :
  predictive_compute_action observation icu time target s = (Ok a, s') ->
  exists backfill tail fb,
    log s' = log s
             ++ [CriticUpdateBuffers observation (action (actor s));
                 ActorUpdateTarget target; CriticUpdateTarget target]
             ++ backfill
             ++ [ActorReceiveObservation observation]
             ++ tail
    /\ (backfill = [] \/ exists d v, backfill = [CriticCall d v])
    /\ certified_tail time (commit_calls Predictive) tail fb
    /\ a = action (actor s')
    /\ (action_slot_contract -> forall u, fb = Some u -> a = u).
Proof.
  unfold predictive_compute_action. unfold_m.
  cbn -[invoke_safe_action predictive_backfill].
  match goal with
  | |- context [predictive_backfill ?o ?g ?x] =>
      destruct (predictive_backfill o g x) as [[[] | ?] s0] eqn:B;
      cbn -[invoke_safe_action]; [| discriminate];
      destruct (predictive_backfill_log _ _ _ _ B) as (bf & LB & Shape);
      cbn in LB
  end.
  intros R.
  cut (exists tail fb,
          log s' = log s0 ++ [ActorReceiveObservation observation] ++ tail
          /\ certified_tail time (commit_calls Predictive) tail fb
          /\ a = action (actor s')
          /\ (action_slot_contract -> forall u, fb = Some u -> a = u)).
  { intros (tail & fb & L & rest). exists bf, tail, fb.
    split; [| split; [exact Shape | exact rest]].
    rewrite L, LB. cbn. rewrite <- !app_assoc. reflexivity. }
  revert R. clear LB Shape B.
  split_status.
  - split_safe_call. split_status.
    + close_sample (@None vec).
    + split_safe_call. close_sample (Some a1).
  - split_safe_call. close_sample (Some a0).
Qed.

Lemma compute_action_expost (s : state) observation icu time target :
  kind s = ExPost ->
  compute_action observation icu time target s
  = expost_compute_action observation icu time target s.
Proof. intros E. unfold compute_action, bind, get. now rewrite E. Qed.

Lemma compute_action_predictive (s : state) observation icu time target :
  kind s = Predictive ->
  compute_action observation icu time target s
  = predictive_compute_action observation icu time target s.
Proof. intros E. unfold compute_action, bind, get. now rewrite E. Qed.



Lemma certified_tail_starts_with_optimization time commit tail fb :
  certified_tail time commit tail fb ->
  exists post, tail = CriticOptimizeWeights time :: post.
Proof. intros T; destruct T; eexists; reflexivity. Qed.


(** C4.  A call of [invoke_safe_action] that returns has (a) called the
    critic's [restore_weights] first, (b) obtained its action from the
    fallback controller on [observation - observation_target], (c) left that
    action in the actor's current-action slot and (d) added the running
    objective of the observation and that action to [r_prev]. *)
Theorem C4_invoke_safe_action_effects
    (s s' : state) (observation : vec) :
  action_slot_contract ->
  invoke_safe_action observation s = (Ok tt, s') ->
  exists d a x,
    zip_with fsub observation (observation_target s) = Some d
    /\ safe_compute_action d (safe_controller (actor s)) = (Ok a, x)
    /\ log s' = log s ++ [CriticRestoreWeights; SafeComputeAction d a;
                          ActorSetAction a; ActorModelUpdateAndCacheWeights a]
    /\ action (actor s') = a
    /\ critic s' = set_r_prev
                     (fadd (r_prev (critic_restore_weights (critic s)))
                           (actor_running_objective (actor s') observation a))
                     (critic_restore_weights (critic s)).
Proof.
  intros [SetA Frame] R.
  destruct (invoke_safe_action_run _ _ _ R)
    as (d & a & x & D & E & L & A & Cr & _).
  exists d, a, x. repeat split; try assumption.
  rewrite A, Frame, SetA. reflexivity.
Qed.

(** C6 (as amended).  In the Predictive variant the block that opens a
    sample is keyed on the actor's acceptance status: when it is "accepted"
    both statuses become "rejected", [observation_last_good] becomes the
    current observation and, if [CALFs] is not empty, its last entry is
    replaced by the stored-weights critic evaluated at the observation minus
    the target; when it is not, the block changes nothing, whatever the
    critic's status.  The flag [is_critic_update] is not consulted. *)
Theorem C6_backfill_keyed_on_actor_status
    (s s' : state) (observation target : vec) :
  predictive_backfill observation target s = (Ok tt, s') ->
  (if accepted (a_status (actor s))
   then
     a_status (actor s') = "rejected"%string
     /\ c_status (critic s') = "rejected"%string
     /\ observation_last_good (critic s') = observation
     /\ match CALFs (critic s) with
        | [] => CALFs (critic s') = []
        | _ :: _ =>
            exists d,
              zip_with fsub observation target = Some d
              /\ CALFs (critic s')
                 = set_last
                     (critic_call
                        (set_c_status "rejected"
                           (set_observation_last_good observation (critic s)))
                        d true)
                     (CALFs (critic s))
        end
   else s' = s)
  /\ (forall icu icu' time,
        predictive_compute_action observation icu time target
        = predictive_compute_action observation icu' time target).
Proof.
  intros R. split; [| reflexivity].
  apply predictive_backfill_run in R.
  destruct (accepted (a_status (actor s))); [| exact R].
  destruct R as (A & Cs & O & R). rewrite A.
  repeat split; try assumption.
  destruct (CALFs (critic s)).
  - apply R.
  - destruct R as (d & D & _ & E). now exists d.
Qed.

Ltac contradict_accepted Hlog Hacc :=
  cbn in Hlog;
  repeat match goal with
         | L : log _ = _ |- _ =>
             lazymatch L with
             | Hlog => fail
             | _ => rewrite L in Hlog; clear L
             end
         end;
  cbn in Hlog; rewrite <- ?app_assoc in Hlog; cbn in Hlog;
  apply app_inv_head in Hlog; subst;
  unfold sample_accepted in Hacc; cbn in Hacc;
  repeat match goal with A : accepted _ = _ |- _ => rewrite A in Hacc end;
  cbn in Hacc; discriminate.

(** In an ExPost sample in which both tests come out "accepted", the
    running-cost baseline [r_prev] is assigned, not incremented: it ends as
    the running objective of the observation and the emitted (learned)
    action, whatever the fallback call of that sample had added. *)
Theorem X13_expost_accepted_sample_sets_baseline
    (s s' : state) (observation target : vec) (icu : bool) (time : R)
    (a : vec) (evs : list event) :
  expost_compute_action observation icu time target s = (Ok a, s') ->
  log s' = log s ++ evs ->
  sample_accepted evs = true ->
  a = action (actor s')
  /\ r_prev (critic s') = actor_running_objective (actor s') observation a.
Proof.
  unfold expost_compute_action. unfold_m.
  cbn -[invoke_safe_action].
  split_status.
  - split_safe_call. split_status.
    + intros R Hlog Hacc. injection R as <- <-. cbn. auto.
    + split_safe_call. intros R Hlog Hacc. injection R as <- <-.
      contradict_accepted Hlog Hacc.
  - split_safe_call. intros R Hlog Hacc. injection R as <- <-.
    contradict_accepted Hlog Hacc.
Qed.

End Fallback.

(* ------------------------------------------------------------------ *)
(** ** The orchestrator on the reference collaborators *)

Section OnReference.
Import CALF Ref.

Lemma reference_contract :
  @action_slot_contract ActorRest CriticRest (KinPoint.t RefClock) RefClock
                        Ref.collaborators.
Proof. split; intros; reflexivity. Qed.





(** One pass through the fallback at [critic_fails] returns. *)
Lemma critic_fails_fallback_returns :
  exists s' : Ref.state,
    invoke_safe_action [Fin 1; Fin 0] critic_fails = (Ok tt, s').
Proof. eexists. vm_compute. reflexivity. Qed.

Lemma C4_invoke_safe_action_effects_witness :
  exists (s' : Ref.state) d a,
    zip_with fsub [Fin 1; Fin 0] (observation_target critic_fails) = Some d
    /\ log s' = log critic_fails
                ++ [CriticRestoreWeights; SafeComputeAction d a;
                    ActorSetAction a; ActorModelUpdateAndCacheWeights a]
    /\ action (actor s') = a.
Proof.
  destruct critic_fails_fallback_returns as (s' & R).
  destruct (C4_invoke_safe_action_effects
              critic_fails s' [Fin 1; Fin 0] reference_contract R)
    as (d & a & x & D & _ & L & A & _).
  exists s', d, a. auto.
Defined.

(** The opening block of a Predictive sample at [after_accepted] returns. *)
Lemma after_accepted_backfill_returns :
  exists s' : Ref.state,
    predictive_backfill [Fin 1; Fin 2] [Fin 0; Fin 0] after_accepted
    = (Ok tt, s').
Proof. eexists. vm_compute. reflexivity. Qed.

Lemma C6_backfill_keyed_on_actor_status_witness :
  exists s' : Ref.state,
    predictive_backfill [Fin 1; Fin 2] [Fin 0; Fin 0] after_accepted
    = (Ok tt, s')
    /\ a_status (actor s') = "rejected"%string
    /\ c_status (critic s') = "rejected"%string
    /\ observation_last_good (critic s') = [Fin 1; Fin 2].
Proof.
  destruct after_accepted_backfill_returns as (s' & R).
  exists s'. split; [exact R |].
  pose proof (C6_backfill_keyed_on_actor_status
                after_accepted s' [Fin 1; Fin 2] [Fin 0; Fin 0] R) as W.
  cbn in W. destruct W as [(A & Cs & O & _) _]. auto.
Defined.

(** C6 (as stated) fails: with the critic's status "accepted" and the
    actor's "rejected", the block leaves the statuses, the last good
    observation and the certificate log as they were. *)
Lemma C6_backfill_not_keyed_on_critic_status :
  accepted (c_status (critic after_actor_rejected)) = true
  /\ exists s' : Ref.state,
       predictive_backfill [Fin 1; Fin 2] [Fin 0; Fin 0] after_actor_rejected
       = (Ok tt, s')
       /\ c_status (critic s') = "accepted"%string
       /\ observation_last_good (critic s') <> [Fin 1; Fin 2]
       /\ CALFs (critic s') = CALFs (critic after_actor_rejected).
Proof.
  split; [reflexivity |].
  eexists. split; [vm_compute; reflexivity |]. repeat split.
  intros E. injection E as E _. lra.
Qed.

(** C3: the code at a failing input.  One call of [invoke_safe_action] on
    the observation [(1, 0)] raises [r_prev] from 0 to 2, a second call in
    the same sample raises it to 4, and so does the ExPost sample whose
    critic is accepted and whose actor is rejected. *)
Lemma C3_running_cost_counted_twice :
  exists s1 s2 : Ref.state,
    invoke_safe_action [Fin 1; Fin 0] critic_fails = (Ok tt, s1)
    /\ invoke_safe_action [Fin 1; Fin 0] s1 = (Ok tt, s2)
    /\ r_prev (critic s1) = Fin 2
    /\ r_prev (critic s2) = Fin 4
    /\ exists a (s' : Ref.state),
         compute_action [Fin 1; Fin 0] false 0 [Fin 0; Fin 0] actor_fails
         = (Ok a, s')
         /\ r_prev (critic s') = Fin 4.
Proof.
  do 2 eexists.
  split; [vm_compute; reflexivity |]. split; [vm_compute; reflexivity |].
  split; [vm_compute; f_equal; lra |]. split; [vm_compute; f_equal; lra |].
  do 2 eexists. split; [vm_compute; reflexivity |]. vm_compute; f_equal; lra.
Qed.

End OnReference.

(* ------------------------------------------------------------------ *)
(** ** Sampling: hold between boundaries, one cycle at a boundary *)

Lemma apply_action_bounds_run {S} `{Bounded S} (m : M S vec) (s : S) :
  apply_action_bounds m s
  = match m s with
    | (Raise e, s1) => (Raise e, s1)
    | (Ok a, s1) =>
        let s2 := store_action a s1 in
        match clipped (action_bounds_of s2) a with
        | Ok c => (Ok c,
                   if bounds_differ_from_empty_list (action_bounds_of s2)
                   then store_action c s2 else s2)
        | Raise e => (Raise e, s2)
        end
    end.
Proof.
  unfold apply_action_bounds, clipped, bind, modify, get, ret, raise.
  destruct (m s) as [[a | e] s1]; [| reflexivity]. cbn.
  destruct (bounds_differ_from_empty_list (action_bounds_of (store_action a s1)));
    [| reflexivity].
  destruct (clip_to (action_bounds_of (store_action a s1)) a); reflexivity.
Qed.

Section Sampling.
Import CALF.
Context {AInt CInt S C : Type} `{SafeOps S} `{ClockOps C}
        `{CALF.Collaborators AInt CInt S C}.

Abbreviation state := (CALF.t AInt CInt S C).

(** The body of [Controller.compute_action_sampled] returns the actor's
    current action and leaves the bounds alone. *)
Lemma sampled_body_returns_current_action
    (s s' : state) time observation target a :
  sampled_body time observation target s = (Ok a, s') ->
  a = action (actor s').
Proof.
  unfold sampled_body. unfold_m. cbn -[compute_action].
  destruct (check_time time (clock s)) as [new c].
  destruct (check_time time (c_clock (critic s))) as [upd k].
  cbn -[compute_action].
  destruct new.
  - match goal with
    | |- context [compute_action ?o ?i ?t ?g ?x] =>
        destruct (compute_action o i t g x) as [[? | ?] ?]
    end; cbn; [| discriminate].
    intros R. now injection R as <- <-.
  - intros R. now injection R as <- <-.
Qed.

(** Between boundaries the body runs no cycle. *)
Lemma sampled_body_hold (s : state) time observation target c :
  check_time time (clock s) = (false, c) ->
  exists s',
    sampled_body time observation target s = (Ok (action (actor s)), s')
    /\ log s' = log s /\ actor s' = actor s
    /\ action_bounds s' = action_bounds s /\ clock s' = c.
Proof.
  intros Hold. unfold sampled_body. unfold_m. cbn -[compute_action]. rewrite Hold.
  destruct (check_time time (c_clock (critic s))) as [upd k].
  cbn -[compute_action].
  eexists. split; [reflexivity |]. cbn. auto.
Qed.

Lemma controller_sampled_result (s s' : state) time observation target a :
  controller_compute_action_sampled time observation target s = (Ok a, s') ->
  clipped (action_bounds s') (action (actor s')) = Ok a.
Proof.
  unfold controller_compute_action_sampled.
  rewrite apply_action_bounds_run.
  destruct (sampled_body time observation target s) as [[u | e] s1] eqn:B;
    [| discriminate].
  apply sampled_body_returns_current_action in B. subst u. cbn.
  destruct (clipped (action_bounds s1) (action (actor s1))) as [c | e] eqn:Cl;
    [| discriminate].
  intros R. injection R as <- <-.
  destruct (bounds_differ_from_empty_list (action_bounds s1)); exact Cl.
Qed.

Lemma controller_sampled_hold (s : state) time observation target c a :
  check_time time (clock s) = (false, c) ->
  clipped (action_bounds s) (action (actor s)) = Ok a ->
  exists s',
    controller_compute_action_sampled time observation target s = (Ok a, s')
    /\ log s' = log s /\ actor s' = actor s /\ clock s' = c.
Proof.
  intros Hold Cl.
  destruct (sampled_body_hold s time observation target c Hold)
    as (s1 & B & L & A & Bd & Ck).
  unfold controller_compute_action_sampled.
  rewrite apply_action_bounds_run, B. cbn. rewrite Bd, Cl.
  eexists. split; [reflexivity |].
  destruct (bounds_differ_from_empty_list (action_bounds s)); cbn; auto.
Qed.

(** [RLController.compute_action] never raises before the decorator, and
    makes these calls. *)
Lemma rl_body_run (s : state) observation icu time target :
  exists a0 s0,
    rl_compute_action_body observation icu time target s = (Ok a0, s0)
    /\ log s0 = log s
                ++ [CriticUpdateBuffers observation (action (actor s));
                    ActorReceiveObservation observation;
                    ActorUpdateTarget target; CriticUpdateTarget target]
                ++ (if icu
                    then [CriticOptimizeWeights time;
                          CriticUpdateAndCacheWeights]
                    else [])
                ++ [ActorOptimizeWeights; ActorUpdateAndCacheWeights;
                    ActorUpdateAction].
Proof.
  unfold rl_compute_action_body. unfold_m.
  destruct icu; cbn; do 2 eexists; (split; [reflexivity |]);
    cbn; rewrite <- ?app_assoc; cbn; reflexivity.
Qed.

(** A returning call of [compute_action] makes the calls of one whole
    cycle of its class, and only those. *)
Lemma compute_action_full_cycle
    (s s' : state) observation icu time target a :
  compute_action observation icu time target s = (Ok a, s') ->
  exists evs,
    log s' = log s ++ evs
    /\ full_cycle time observation target (action (actor s)) icu (kind s) evs.
Proof.
  destruct (kind s) eqn:E.
  - unfold compute_action, bind, get. rewrite E.
    rewrite apply_action_bounds_run.
    destruct (rl_body_run s observation icu time target)
      as (a0 & s0 & -> & L).
    cbv zeta.
    destruct (clipped (action_bounds_of (store_action a0 s0)) a0);
      [| discriminate].
    intros R. injection R as <- <-.
    eexists. split; [| apply cycle_rl]. cbn.
    destruct (bounds_differ_from_empty_list (action_bounds s0)); exact L.
  - rewrite (compute_action_expost _ _ _ _ _ E). intros R.
    destruct (expost_sample _ _ _ _ _ _ _ R) as (tail & fb & L & T & _).
    eexists. split; [exact L |]. eapply cycle_expost. exact T.
  - rewrite (compute_action_predictive _ _ _ _ _ E). intros R.
    destruct (predictive_sample _ _ _ _ _ _ _ R)
      as (bf & tail & fb & L & B & T & _).
    eexists. split; [exact L |]. eapply cycle_predictive; eassumption.
Qed.

(** At a boundary [Controller.compute_action_sampled] runs [compute_action]
    once, on the controller with the target stored and both clocks
    consulted, and adds nothing to what that cycle did but the attribute
    [action]. *)
Lemma controller_sampled_boundary
    (s s' : state) time observation target c a :
  check_time time (clock s) = (true, c) ->
  controller_compute_action_sampled time observation target s = (Ok a, s') ->
  exists u s1,
    compute_action observation (critic_update_due time s) time target
                   (at_tick time target s)
    = (Ok u, s1)
    /\ actor s' = actor s1 /\ critic s' = critic s1 /\ log s' = log s1
    /\ clock s' = clock s1.
Proof.
  intros New. unfold controller_compute_action_sampled.
  rewrite apply_action_bounds_run.
  destruct (sampled_body time observation target s) as [[v | e] s0] eqn:B;
    [| discriminate].
  assert (L : exists u,
             compute_action observation (critic_update_due time s) time target
                            (at_tick time target s)
             = (Ok u, s0)).
  { revert B. unfold sampled_body, at_tick, critic_update_due. unfold_m.
    cbn -[compute_action]. rewrite New.
    destruct (check_time time (c_clock (critic s))) as [upd k].
    cbn -[compute_action].
    match goal with
    | |- context [compute_action ?o ?i ?t ?g ?x] =>
        destruct (compute_action o i t g x) as [[u | ?] s2]
    end; cbn; [| discriminate].
    intros R. injection R as <- <-. now exists u. }
  destruct L as [u L]. cbn.
  destruct (clipped (action_bounds s0) v); [| discriminate].
  intros R. injection R as <- <-. exists u, s0.
  split; [exact L |].
  destruct (bounds_differ_from_empty_list (action_bounds s0)); cbn; auto.
Qed.

End Sampling.

Section SamplingCLF.
Context {C : Type} `{ClockOps C}.
Variable minimizer_theta : NI.V3 -> fl * fl -> fl.

Lemma clf_sampled_leaves_action_old (s s' : CLF.t C) time observation a :
  CLF.compute_action_sampled minimizer_theta time observation s = (Ok a, s') ->
  CLF.action_old s' = a.
Proof.
  unfold CLF.compute_action_sampled, bind, modify, get, ret. cbn.
  destruct (check_time time (CLF.clock s)) as [[|] c]; cbn.
  - match goal with
    | |- context [CLF.compute_action ?f ?o ?x] =>
        destruct (CLF.compute_action f o x) as [[? | ?] ?]
    end; cbn; [| discriminate].
    intros R. now injection R as <- <-.
  - intros R. now injection R as <- <-.
Qed.

Lemma clf_sampled_hold (s : CLF.t C) time observation c :
  check_time time (CLF.clock s) = (false, c) ->
  CLF.compute_action_sampled minimizer_theta time observation s
  = (Ok (CLF.action_old s), CLF.set_clock c s).
Proof.
  intros Hold. unfold CLF.compute_action_sampled, bind, modify, get, ret.
  cbn. rewrite Hold. reflexivity.
Qed.

Lemma clf_sampled_boundary (s s' : CLF.t C) time observation c a :
  check_time time (CLF.clock s) = (true, c) ->
  CLF.compute_action_sampled minimizer_theta time observation s = (Ok a, s') ->
  exists s1,
    CLF.compute_action minimizer_theta observation (CLF.set_clock c s)
    = (Ok a, s1)
    /\ s' = CLF.set_action_old a s1.
Proof.
  intros New. unfold CLF.compute_action_sampled, bind, modify, get, ret.
  cbn. rewrite New. cbn.
  match goal with
  | |- context [CLF.compute_action ?f ?o ?x] =>
      destruct (CLF.compute_action f o x) as [[u | ?] s1]
  end; cbn; [| discriminate].
  intros R. injection R as <- <-. now exists s1.
Qed.

End SamplingCLF.

Lemma ref_check_time_crossed (t : R) (c : RefClock) :
  rc_current_time c + rc_period c <= t ->
  ref_check_time t c
  = (true, {| rc_period := rc_period c; rc_time_start := rc_time_start c;
              rc_current_time := t |}).
Proof.
  intros L. unfold ref_check_time.
  destruct (Rle_dec (rc_current_time c + rc_period c) t);
    [reflexivity | contradiction].
Qed.

Lemma ref_check_time_hold (t : R) (c : RefClock) :
  t < rc_current_time c + rc_period c ->
  ref_check_time t c = (false, c).
Proof.
  intros L. unfold ref_check_time.
  destruct (Rle_dec (rc_current_time c + rc_period c) t);
    [lra | reflexivity].
Qed.

Section ZeroOrderHold.
Import CALF.
Context {AInt CInt S C : Type} `{SafeOps S} `{ClockOps C}
        `{CALF.Collaborators AInt CInt S C}.
Variable minimizer_theta : NI.V3 -> fl * fl -> fl.

Abbreviation state := (CALF.t AInt CInt S C).

(** C2.  Zero-order hold, for [Controller.compute_action_sampled] and for
    [Controller3WRobotDisassembledCLF.compute_action_sampled]: a call for
    which the clock reports no new sample returns the action the prior call
    returned and runs no cycle (the log and the actor are untouched); a call
    at a boundary runs [compute_action] once, on the controller with the
    target stored and both clocks consulted; the calls made are those of
    one whole cycle of the controller's class and no others, and the action
    returned is the one that cycle leaves in the actor, clipped. *)
Theorem C2_zero_order_hold :
  (forall (s s1 : state) time observation target a time' observation' target' c',
      controller_compute_action_sampled time observation target s = (Ok a, s1) ->
      check_time time' (clock s1) = (false, c') ->
      exists s2,
        controller_compute_action_sampled time' observation' target' s1
        = (Ok a, s2)
        /\ log s2 = log s1 /\ actor s2 = actor s1)
  /\ (forall (q q1 : CLF.t C) time observation a time' observation' c',
        CLF.compute_action_sampled minimizer_theta time observation q
        = (Ok a, q1) ->
        check_time time' (CLF.clock q1) = (false, c') ->
        CLF.compute_action_sampled minimizer_theta time' observation' q1
        = (Ok a, CLF.set_clock c' q1))
  /\ (forall (s s' : state) time observation target c a,
        check_time time (clock s) = (true, c) ->
        controller_compute_action_sampled time observation target s
        = (Ok a, s') ->
        (exists u s1,
            compute_action observation (critic_update_due time s) time target
                           (at_tick time target s)
            = (Ok u, s1)
            /\ actor s' = actor s1 /\ critic s' = critic s1
            /\ log s' = log s1)
        /\ (exists evs,
               log s' = log s ++ evs
               /\ full_cycle time observation target (action (actor s))
                             (critic_update_due time s) (kind s) evs)
        /\ clipped (action_bounds s') (action (actor s')) = Ok a)
  /\ (forall (q q' : CLF.t C) time observation c a,
        check_time time (CLF.clock q) = (true, c) ->
        CLF.compute_action_sampled minimizer_theta time observation q
        = (Ok a, q') ->
        exists q1,
          CLF.compute_action minimizer_theta observation (CLF.set_clock c q)
          = (Ok a, q1)
          /\ q' = CLF.set_action_old a q1).
Proof.
  repeat split.
  - intros s s1 time observation target a time' observation' target' c' R Hold.
    apply controller_sampled_result in R.
    destruct (controller_sampled_hold s1 time' observation' target' c' a Hold R)
      as (s2 & R2 & L & A & _).
    now exists s2.
  - intros q q1 time observation a time' observation' c' R Hold.
    apply clf_sampled_leaves_action_old in R.
    rewrite (clf_sampled_hold _ _ _ _ _ Hold), R. reflexivity.
  - destruct (controller_sampled_boundary _ _ _ _ _ _ _ H2 H3)
      as (u & s1 & Cy & A & Cr & L & _).
    exists u, s1. auto.
  - destruct (controller_sampled_boundary _ _ _ _ _ _ _ H2 H3)
      as (u & s1 & Cy & _ & _ & L & _).
    destruct (compute_action_full_cycle _ _ _ _ _ _ _ Cy) as (evs & Le & F).
    exists evs. split; [rewrite L; exact Le | exact F].
  - eapply controller_sampled_result; eassumption.
  - intros q q' time observation c a New R.
    eapply clf_sampled_boundary; eassumption.
Qed.

End ZeroOrderHold.

(* ------------------------------------------------------------------ *)
(** ** Action bounds *)

Lemma clip_cell (a lo hi : fl) :
  not_nan a -> fle lo hi ->
  fle lo (fminimum (fmaximum a lo) hi) /\ fle (fminimum (fmaximum a lo) hi) hi.
Proof.
  destruct a as [x | [|] |], lo as [l | [|] |], hi as [h | [|] |];
    cbn; try tauto; intros _ L;
    unfold Rmax, Rmin;
    repeat match goal with
           | |- context [Rle_dec ?u ?v] => destruct (Rle_dec u v)
           end; cbn; try tauto; lra.
Qed.

Lemma zip_with_same_length (f : fl -> fl -> fl) (a b : vec) :
  List.length a = List.length b ->
  zip_with f a b = Some (map (fun p => f (fst p) (snd p)) (combine a b)).
Proof.
  intros E. unfold zip_with, broadcast2. now rewrite E, Nat.eqb_refl.
Qed.

Lemma clip_same_length (a : vec) (rows : list (fl * fl)) :
  List.length a = List.length rows ->
  clip a (map fst rows) (map snd rows)
  = Some (map (fun p => fminimum (fmaximum (fst p) (fst (snd p))) (snd (snd p)))
              (combine a rows)).
Proof.
  intros E. unfold clip.
  rewrite zip_with_same_length by now rewrite length_map.
  rewrite zip_with_same_length
    by (rewrite !length_map, length_combine, length_map, E; apply Nat.min_id).
  f_equal. revert rows E.
  induction a as [| x a IH]; intros [| [lo hi] rows] E; try discriminate;
    [reflexivity |].
  cbn. f_equal. apply IH. now injection E.
Qed.

(** Configured rows with [low <= high] contain what the decorator returns
    for an action of that many channels without NaN. *)
Lemma clipped_within_bounds (a : vec) (rows : list (fl * fl)) :
  List.length a = List.length rows ->
  Forall not_nan a ->
  well_formed_rows rows ->
  exists c, clipped (BoundsArray rows) a = Ok c /\ within_bounds rows c.
Proof.
  intros E N W. unfold clipped, clip_to. cbn.
  rewrite (clip_same_length a rows E).
  eexists; split; [reflexivity |].
  unfold within_bounds. revert rows E W.
  induction N as [| x a Nx N IH]; intros [| [lo hi] rows] E W;
    try discriminate; cbn; [constructor |].
  inversion W as [| ? ? Wr Ws]; subst.
  constructor; [apply clip_cell; assumption |].
  apply IH; [now injection E | assumption].
Qed.

Lemma clipped_empty (a : vec) : clipped BoundsEmpty a = Ok a.
Proof. reflexivity. Qed.

Lemma clipped_none (a : vec) : clipped BoundsNone a = Raise TypeError.
Proof. reflexivity. Qed.

(** With [action_bounds] left at [None] the decorator raises as soon as the
    wrapped method has returned. *)
Lemma none_bounds_raise {S} `{Bounded S} (m : M S vec) (s s1 : S) (a : vec) :
  m s = (Ok a, s1) ->
  action_bounds_of (store_action a s1) = BoundsNone ->
  fst (apply_action_bounds m s) = Raise TypeError.
Proof.
  intros R B. rewrite apply_action_bounds_run, R. cbn. rewrite B. reflexivity.
Qed.

Section BoundsOnReference.
Import CALF Ref.

(** C5: the code at a failing input.  A controller whose [action_bounds]
    kept the constructor's default [None] raises [TypeError] on a call of
    [compute_action_sampled] between two boundaries, and so does the
    default-constructed NI controller on [compute_action]; with the empty
    list in place of [None] the same call returns the held action
    unclipped. *)
Lemma C5_unset_bounds_raise :
  fst (controller_compute_action_sampled (1 / 2) [Fin 1; Fin 0] [Fin 0; Fin 0]
                                         default_bounds)
  = Raise TypeError
  /\ fst (NI.compute_action [Fin 0; Fin 1; Fin 0] ni_unbounded)
     = Raise TypeError
  /\ fst (controller_compute_action_sampled (1 / 2) [Fin 1; Fin 0]
                                            [Fin 0; Fin 0] critic_fails)
     = Ok [Fin 0; Fin 0].
Proof.
  assert (Hold : forall s : Ref.state,
             clock s = new_clock 1 0 ->
             check_time (1 / 2) (clock s) = (false, clock s)).
  { intros s E. rewrite E. apply ref_check_time_hold. cbn. lra. }
  split; [| split].
  - destruct (sampled_body_hold default_bounds (1 / 2) [Fin 1; Fin 0]
                [Fin 0; Fin 0] _ (Hold default_bounds eq_refl))
      as (s1 & B & _ & _ & Bd & _).
    unfold controller_compute_action_sampled.
    apply (none_bounds_raise _ _ _ _ B). exact Bd.
  - unfold NI.compute_action.
    eapply none_bounds_raise;
      [ unfold NI.compute_action_body, NI.compute_LF, bind, lift_opt, modify,
          get, ret;
        rewrite NIFacts.Cart2NH_axis; reflexivity
      | reflexivity ].
  - destruct (controller_sampled_hold critic_fails (1 / 2) [Fin 1; Fin 0]
                [Fin 0; Fin 0] _ [Fin 0; Fin 0] (Hold critic_fails eq_refl)
                eq_refl)
      as (s1 & R & _).
    now rewrite R.
Qed.

End BoundsOnReference.

(* ------------------------------------------------------------------ *)
(** ** Safe-only mode *)

Section SafeOnly.
Import CALF.
Context {AInt CInt S C : Type} `{SafeOps S} `{ClockOps C}
        `{CALF.Collaborators AInt CInt S C}.

Abbreviation state := (CALF.t AInt CInt S C).

Lemma safe_only_step (s : state) time observation target :
  safe_only s = true ->
  compute_action_sampled time observation target s
  = (fst (safe_compute_action_sampled time observation
            (safe_controller (actor s))),
     with_actor
       (set_safe_controller
          (snd (safe_compute_action_sampled time observation
                  (safe_controller (actor s)))))
       s).
Proof.
  intros E. unfold compute_action_sampled, on_safe, bind, get. rewrite E.
  destruct (safe_compute_action_sampled time observation
              (safe_controller (actor s))); reflexivity.
Qed.

(** C9.  With [safe_only] set, the results the controller returns over any
    sequence of ticks (actions and raised exceptions alike) are those the
    embedded fallback controller returns on the same times and
    observations from its state at the start, and the two end with the
    fallback controller in the same state. *)
Theorem C9_safe_only_is_the_fallback_controller
    (ticks : list (R * vec * vec)) (s : state) :
  safe_only s = true ->
  fst (run_sampled ticks s) = fst (run_safe ticks (safe_controller (actor s)))
  /\ safe_controller (actor (snd (run_sampled ticks s)))
     = snd (run_safe ticks (safe_controller (actor s))).
Proof.
  revert s. induction ticks as [| [[time observation] target] rest IH];
    intros s E; [split; reflexivity |].
  cbn [run_sampled run_safe].
  rewrite (safe_only_step s time observation target E).
  destruct (safe_compute_action_sampled time observation
              (safe_controller (actor s))) as [r x] eqn:Step.
  cbn [fst snd].
  specialize (IH (with_actor (set_safe_controller x) s) E).
  cbn [actor with_actor safe_controller set_safe_controller] in IH.
  destruct (run_sampled rest (with_actor (set_safe_controller x) s))
    as [rs s2].
  destruct (run_safe rest x) as [rs' x2].
  cbn [fst snd] in *. destruct IH as [-> ->]. split; reflexivity.
Qed.

End SafeOnly.

Section SafeOnlyOnReference.
Import CALF Ref.

Lemma C9_safe_only_is_the_fallback_controller_witness :
  fst (run_sampled [(1, [Fin 1; Fin 0], [Fin 0; Fin 0]);
                    (3 / 2, [Fin 2; Fin 0], [Fin 0; Fin 0])]
                   only_safe)
  = fst (run_safe [(1, [Fin 1; Fin 0], [Fin 0; Fin 0]);
                   (3 / 2, [Fin 2; Fin 0], [Fin 0; Fin 0])]
                  (safe_controller (actor only_safe))).
Proof.
  apply (C9_safe_only_is_the_fallback_controller
           [(1, [Fin 1; Fin 0], [Fin 0; Fin 0]);
            (3 / 2, [Fin 2; Fin 0], [Fin 0; Fin 0])]
           only_safe).
  reflexivity.
Defined.

End SafeOnlyOnReference.

(* ------------------------------------------------------------------ *)
(** ** [reset] *)

Section Reset.
Import CALF.
Context {AInt CInt S C : Type} `{SafeOps S} `{ClockOps C}
        `{CALF.Collaborators AInt CInt S C}.

(** [RLController.reset] rewinds both clocks, assigns [action_old] and
    leaves the rest of the actor and of the critic, the weights among it,
    and the actor's current action as they are. *)
Lemma rl_reset_effects (s : CALF.t AInt CInt S C) :
  clock (reset s) = clock_reset (clock s)
  /\ c_clock (critic (reset s)) = clock_reset (c_clock (critic s))
  /\ action_old (actor (reset s)) = action_init (actor s)
  /\ a_rest (actor (reset s)) = a_rest (actor s)
  /\ c_rest (critic (reset s)) = c_rest (critic s)
  /\ action (actor (reset s)) = action (actor s).
Proof. repeat split. Qed.

End Reset.

Lemma clf_compute_action_keeps_clock {C} `{ClockOps C}
    (f : NI.V3 -> fl * fl -> fl) (observation : vec) (q : CLF.t C) :
  CLF.clock (snd (CLF.compute_action f observation q)) = CLF.clock q.
Proof.
  unfold CLF.compute_action. rewrite apply_action_bounds_run.
  unfold CLF.compute_action_body, bind, lift_opt, modify, get, ret, raise.
  destruct (CLF.Cart2NH observation) as [[xNI eta] | e]; cbn; [| reflexivity].
  match goal with
  | |- context [clipped ?b ?u] => destruct (clipped b u)
  end; [| reflexivity].
  destruct (bounds_differ_from_empty_list (CLF.action_bounds q)); reflexivity.
Qed.

Lemma clf_sampled_clock {C} `{ClockOps C}
    (f : NI.V3 -> fl * fl -> fl) (time : R) (observation : vec)
    (q : CLF.t C) :
  CLF.clock (snd (CLF.compute_action_sampled f time observation q))
  = snd (check_time time (CLF.clock q)).
Proof.
  unfold CLF.compute_action_sampled, bind, modify, get, ret. cbn.
  destruct (check_time time (CLF.clock q)) as [[|] c]; cbn; [| reflexivity].
  pose proof (clf_compute_action_keeps_clock f observation (CLF.set_clock c q))
    as K.
  destruct (CLF.compute_action f observation (CLF.set_clock c q))
    as [[a | e] q1]; cbn in *; exact K.
Qed.

(** C7: the code at a failing input.  After a sample at time 1 the clock of
    a [Controller3WRobotDisassembledCLF] started at 0 stands at 1;
    [reset] leaves it there, away from its origin, where the clock's own
    [reset] would put it back. *)
Lemma C7_clf_reset_leaves_clock_unrewound :
  let q1 := snd (CLF.compute_action_sampled
                   (fun _ _ => Fin 0) 1
                   [Fin 1; Fin 1; Fin 0; Fin 0; Fin 0] clf_default) in
  rc_current_time (CLF.clock q1) = 1
  /\ CLF.clock (CLF.reset q1) = CLF.clock q1
  /\ rc_current_time (CLF.clock (CLF.reset q1))
     <> rc_time_start (CLF.clock (CLF.reset q1))
  /\ rc_current_time (clock_reset (CLF.clock q1))
     = rc_time_start (CLF.clock q1).
Proof.
  intros q1.
  assert (K : CLF.clock q1
              = {| rc_period := 1 / 10; rc_time_start := 0;
                   rc_current_time := 1 |}).
  { unfold q1. rewrite clf_sampled_clock.
    change (CLF.clock clf_default) with (new_clock (1 / 10) 0).
    cbn [check_time RefClockOps].
    rewrite ref_check_time_crossed by (cbn; lra). reflexivity. }
  change (CLF.clock (CLF.reset q1)) with (CLF.clock q1).
  rewrite K. cbn. repeat split. lra.
Qed.

(* ------------------------------------------------------------------ *)
(** ** More on [apply_action_bounds] *)

Lemma clipped_rows (a : vec) (rows : list (fl * fl)) :
  List.length a = List.length rows ->
  clipped (BoundsArray rows) a
  = Ok (map (fun p => fminimum (fmaximum (fst p) (fst (snd p))) (snd (snd p)))
            (combine a rows)).
Proof.
  intros E. unfold clipped, clip_to. cbn. now rewrite (clip_same_length a rows E).
Qed.

(** Under configured rows with [low <= high], a returning method whose
    action has as many channels as there are rows and no NaN comes back
    from the decorator with every channel inside its row. *)
Theorem X1_decorated_action_within_bounds
    {S} `{Bounded S} (m : M S vec) (s s1 : S) (a : vec)
    (rows : list (fl * fl)) :
  m s = (Ok a, s1) ->
  action_bounds_of (store_action a s1) = BoundsArray rows ->
  List.length a = List.length rows ->
  Forall not_nan a ->
  well_formed_rows rows ->
  exists c, fst (apply_action_bounds m s) = Ok c /\ within_bounds rows c.
Proof.
  intros R B E N W.
  destruct (clipped_within_bounds a rows E N W) as (c & Cl & In).
  exists c. split; [| exact In].
  rewrite apply_action_bounds_run, R. cbn. rewrite B, Cl. reflexivity.
Qed.

Lemma X1_decorated_action_within_bounds_witness :
  exists c,
    fst (KinPoint.compute_action [Fin 3; Fin 0] kin_point_bounded) = Ok c
    /\ within_bounds [(Fin (-1), Fin 1); (Fin (-1), Fin 1)] c.
Proof.
  apply (X1_decorated_action_within_bounds
           (self <- get ;;
            ret (map (fmul (fneg (KinPoint.gain self))) [Fin 3; Fin 0]))
           kin_point_bounded kin_point_bounded
           [Fin (-1 * 3); Fin (-1 * 0)]).
  - reflexivity.
  - reflexivity.
  - reflexivity.
  - repeat constructor.
  - repeat constructor; cbn; lra.
Defined.

Lemma clip_cell_fixed (a lo hi : fl) :
  fle lo a -> fle a hi -> fminimum (fmaximum a lo) hi = a.
Proof.
  destruct a as [x | [|] |], lo as [l | [|] |], hi as [h | [|] |];
    cbn; try tauto; intros L U; try reflexivity.
  - rewrite Rmax_left, Rmin_left by lra. reflexivity.
  - rewrite Rmax_left by lra. reflexivity.
  - rewrite Rmin_left by lra. reflexivity.
Qed.

(** An action that is inside its rows is returned as it is; clipping what
    was already clipped changes nothing. *)
Theorem X2_clipping_is_idempotent (a c : vec) (rows : list (fl * fl)) :
  List.length a = List.length rows ->
  Forall not_nan a ->
  well_formed_rows rows ->
  clipped (BoundsArray rows) a = Ok c ->
  clipped (BoundsArray rows) c = Ok c.
Proof.
  intros E N W Cl.
  destruct (clipped_within_bounds a rows E N W) as (c' & Cl' & In).
  rewrite Cl in Cl'. injection Cl' as <-.
  assert (Ec : List.length c = List.length rows).
  { clear - In. induction In; cbn; congruence. }
  rewrite (clipped_rows c rows Ec). f_equal.
  clear - In. induction In as [| x [lo hi] c rows [L U] In IH]; cbn;
    [reflexivity |].
  rewrite IH. f_equal. now apply clip_cell_fixed.
Qed.

Lemma X2_clipping_is_idempotent_witness :
  clipped (BoundsArray [(Fin (-1), Fin 1); (Fin (-1), Fin 1)])
          [Fin 1; Fin 0]
  = Ok [Fin 1; Fin 0].
Proof.
  apply (X2_clipping_is_idempotent [Fin 1; Fin 0]).
  - reflexivity.
  - repeat constructor.
  - repeat constructor; cbn; lra.
  - rewrite clipped_rows by reflexivity. cbn.
    rewrite !Rmax_left, !Rmin_left by lra. reflexivity.
Defined.

Lemma clip_cell_reversed (a lo hi : fl) :
  not_nan a -> fle hi lo -> fminimum (fmaximum a lo) hi = hi.
Proof.
  destruct a as [x | [|] |], lo as [l | [|] |], hi as [h | [|] |];
    cbn; try tauto; intros _ L; try reflexivity;
    f_equal; unfold Rmax, Rmin;
    repeat match goal with
           | |- context [Rle_dec ?u ?v] => destruct (Rle_dec u v)
           end; lra.
Qed.

(** [np.clip] applies the upper end last: under rows whose high end is at
    most the low end, every action without NaN is replaced by the high
    ends. *)
Theorem X3_reversed_rows_return_high_ends (a : vec) (rows : list (fl * fl)) :
  List.length a = List.length rows ->
  Forall not_nan a ->
  Forall (fun row => fle (snd row) (fst row)) rows ->
  clipped (BoundsArray rows) a = Ok (map snd rows).
Proof.
  intros E N W. rewrite (clipped_rows a rows E). f_equal.
  revert rows E W.
  induction N as [| x a Nx N IH]; intros [| [lo hi] rows] E W;
    try discriminate; [reflexivity |].
  inversion W as [| ? ? Wr Ws]; subst. cbn.
  rewrite (clip_cell_reversed x lo hi Nx Wr). f_equal.
  apply IH; [now injection E | assumption].
Qed.

Lemma X3_reversed_rows_return_high_ends_witness :
  clipped (BoundsArray [(Fin 1, Fin (-1))]) [Fin 0] = Ok [Fin (-1)].
Proof.
  apply (X3_reversed_rows_return_high_ends [Fin 0] [(Fin 1, Fin (-1))]).
  - reflexivity.
  - repeat constructor.
  - repeat constructor; cbn; lra.
Defined.

(** Clipping does not remove NaN: a channel that is NaN before the
    decorator is NaN after it, whatever its row. *)
Theorem X4_clipping_keeps_nan (a c : vec) (rows : list (fl * fl)) (i : nat) :
  List.length a = List.length rows ->
  clipped (BoundsArray rows) a = Ok c ->
  nth_error a i = Some NaN ->
  nth_error c i = Some NaN.
Proof.
  intros E. rewrite (clipped_rows a rows E). intros Cl. injection Cl as <-.
  revert rows i E.
  induction a as [| x a IH]; intros [| [lo hi] rows] [| i] E Nth;
    try discriminate; cbn in *.
  - injection Nth as ->. reflexivity.
  - apply IH; [now injection E | exact Nth].
Qed.

Lemma X4_clipping_keeps_nan_witness :
  nth_error [NaN; Fin 2] 0 = Some NaN.
Proof.
  apply (X4_clipping_keeps_nan [NaN; Fin 0] [NaN; Fin 2]
           [(Fin (-1), Fin 1); (Fin 2, Fin 3)] 0).
  - reflexivity.
  - rewrite clipped_rows by reflexivity. cbn.
    rewrite Rmax_right, Rmin_left by lra. reflexivity.
  - reflexivity.
Defined.

(* ------------------------------------------------------------------ *)
(** ** More on [Controller3WRobotNIDisassembledCLF] *)

Lemma fadd_nan_r (a : fl) : fadd a NaN = NaN.
Proof. destruct a; reflexivity. Qed.

Lemma fmul_nan_r (a : fl) : fmul a NaN = NaN.
Proof. destruct a; reflexivity. Qed.

Section NIEdge.
Import NI.

Lemma sigma_positive (a b c : R) :
  a <> 0 \/ b <> 0 \/ c <> 0 ->
  exists r, 0 < r
            /\ sigma {| v0 := Fin a; v1 := Fin b; v2 := Fin c |} = Fin r.
Proof.
  intros N. unfold sigma. cbn [v0 v1 v2 fpow fmul fadd fabs].
  assert (Q : 0 <= a * a + b * b) by nra.
  cbn [fsqrt]. rewrite (is_neg_false _ Q).
  rewrite is_neg_false by apply Rabs_pos. cbn [fadd].
  eexists; split; [| reflexivity].
  pose proof (sqrt_pos (a * a + b * b)) as P1.
  pose proof (sqrt_pos (Rabs c)) as P2.
  destruct (Req_dec_T c 0) as [-> | Nc].
  - assert (0 < a * a + b * b) by (destruct N as [|[|]]; [nra | nra | lra]).
    pose proof (sqrt_lt_R0 _ H). lra.
  - pose proof (sqrt_lt_R0 _ (Rabs_pos_lt c Nc)). lra.
Qed.

(** Off the guard, with [xNI[2] = 0], the third component of the gradient
    is [0 / sqrt(0)]. *)
Lemma nablaL_third_is_nan (a b : R) :
  a <> 0 \/ b <> 0 ->
  v2 (nablaL {| v0 := Fin a; v1 := Fin b; v2 := Fin 0 |}) = NaN.
Proof.
  intros N.
  destruct (sigma_positive a b 0) as (r & P & E); [tauto |].
  assert (Nr : r * (r * r) <> 0).
  { apply Rgt_not_eq. repeat apply Rmult_lt_0_compat; exact P. }
  unfold nablaL, one, three. cbn [v2]. rewrite E.
  cbn [fabs fpow fmul]. rewrite Rabs_R0.
  cbn [fdiv]. rewrite (is_zero_false _ Nr). cbn [fmul fsqrt].
  rewrite !is_neg_false by lra. rewrite sqrt_0.
  cbn [fdiv]. rewrite !is_zero_true by (unfold Rdiv; lra).
  cbn [fmul]. apply fadd_nan_r.
Qed.

Lemma kappa_nan (xNI : V3) : v2 (zeta xNI) = NaN -> kappa xNI = (NaN, NaN).
Proof.
  intros Z. unfold kappa, dot3. cbn [v0 v1 v2]. rewrite Z.
  cbn [fmul]. rewrite !fadd_nan_r. reflexivity.
Qed.

Context {C : Type} `{ClockOps C}.

(** On every observation whose transform has [xNI[2] = 0] while
    [xNI[0]], [xNI[1]] are not both zero (the robot on the x axis heading
    along it, for one), [compute_action] returns NaN in both channels,
    whatever the gain. *)
Theorem X5_ni_action_is_nan_where_xNI2_vanishes
    (s : NI.t C) (observation : vec) (a b : R) :
  Cart2NH observation = Ok {| v0 := Fin a; v1 := Fin b; v2 := Fin 0 |} ->
  a <> 0 \/ b <> 0 ->
  action_bounds s = BoundsEmpty ->
  fst (compute_action observation s) = Ok [NaN; NaN].
Proof.
  intros E N B.
  rewrite (compute_action_unclipped s observation _ E B).
  unfold body_action. rewrite kappa_nan.
  - cbn [fst snd]. rewrite fmul_nan_r. reflexivity.
  - unfold zeta.
    replace (guard {| v0 := Fin a; v1 := Fin b; v2 := Fin 0 |}) with false.
    + now apply nablaL_third_is_nan.
    + unfold guard. cbn [v0 v1 feq0].
      destruct N as [N | N]; rewrite (is_zero_false _ N);
        [reflexivity | now rewrite andb_false_r].
Qed.

End NIEdge.

Lemma Cart2NH_on_x_axis (x : R) :
  NI.Cart2NH [Fin x; Fin 0; Fin 0]
  = Ok {| NI.v0 := Fin 0; NI.v1 := Fin x; NI.v2 := Fin 0 |}.
Proof.
  unfold NI.Cart2NH, NI.two. cbn [fadd fmul fsub fneg fcos fsin].
  f_equal. f_equal; f_equal; real_norm; lra.
Qed.

Lemma X5_ni_action_is_nan_where_xNI2_vanishes_witness :
  fst (NI.compute_action [Fin 1; Fin 0; Fin 0] ni_default) = Ok [NaN; NaN].
Proof.
  apply (X5_ni_action_is_nan_where_xNI2_vanishes
           ni_default [Fin 1; Fin 0; Fin 0] 0 1).
  - apply Cart2NH_on_x_axis.
  - right. lra.
  - reflexivity.
Defined.

Section NISampling.
Import NI.
Context {C : Type} `{ClockOps C}.

Lemma ni_compute_action_run (s s' : NI.t C) (observation a : vec) :
  compute_action observation s = (Ok a, s') ->
  exists xNI,
    Cart2NH observation = Ok xNI
    /\ clipped (action_bounds s) (body_action s xNI) = Ok a
    /\ Ls s' = Ls s ++ [LF_value xNI]
    /\ times s' = times s
    /\ clock s' = clock s
    /\ action_bounds s' = action_bounds s.
Proof.
  unfold compute_action. rewrite apply_action_bounds_run.
  unfold compute_action_body, compute_LF, bind, lift_opt, modify, get, ret,
    raise.
  destruct (Cart2NH observation) as [xNI | e]; cbn -[LF_value kappa];
    [| discriminate].
  fold (body_action s xNI).
  destruct (clipped (action_bounds s) (body_action s xNI)) as [c | e] eqn:Cl;
    [| discriminate].
  intros R. injection R as <- <-. exists xNI.
  destruct (bounds_differ_from_empty_list (action_bounds s)); cbn; auto 10.
Qed.

(** Zero-order hold and bookkeeping of the NI controller: a call between
    boundaries returns what the prior call returned and changes nothing but
    the clock; a returning call at a boundary appends exactly one
    certificate value to [Ls] and the time to [times]. *)
Theorem X7_ni_hold_and_logs :
  (forall (s s1 : NI.t C) time observation a time' observation' c',
      compute_action_sampled time observation s = (Ok a, s1) ->
      check_time time' (clock s1) = (false, c') ->
      compute_action_sampled time' observation' s1 = (Ok a, set_clock c' s1))
  /\ (forall (s s' : NI.t C) time observation c a,
        check_time time (clock s) = (true, c) ->
        compute_action_sampled time observation s = (Ok a, s') ->
        exists xNI,
          Cart2NH observation = Ok xNI
          /\ Ls s' = Ls s ++ [LF_value xNI]
          /\ times s' = times s ++ [time]).
Proof.
  split.
  - intros s s1 time observation a time' observation' c' R Hold.
    assert (Old : action_old s1 = a).
    { revert R. unfold compute_action_sampled, bind, modify, get, ret.
      cbn -[compute_action].
      destruct (check_time time (clock s)) as [[|] c]; cbn -[compute_action].
      - destruct (compute_action observation (set_clock c s))
          as [[u | e] s0]; cbn; [| discriminate].
        intros R. now injection R as <- <-.
      - intros R. now injection R as <- <-. }
    unfold compute_action_sampled, bind, modify, get, ret. cbn.
    rewrite Hold. cbn. now rewrite Old.
  - intros s s' time observation c a New.
    unfold compute_action_sampled, bind, modify, get, ret.
    cbn -[compute_action]. rewrite New. cbn -[compute_action].
    destruct (compute_action observation (set_clock c s))
      as [[u | e] s0] eqn:Run; cbn; [| discriminate].
    intros R. injection R as <- <-.
    destruct (ni_compute_action_run _ _ _ _ Run)
      as (xNI & E & _ & L & T & _).
    exists xNI. cbn. rewrite L, T. auto.
Qed.

End NISampling.

Section KinPointFacts.
Import KinPoint.
Context {C : Type} `{ClockOps C}.

Lemma kin_point_unbounded_action (s : KinPoint.t C) (observation : vec) :
  action_bounds s = BoundsEmpty ->
  compute_action observation s
  = (Ok (map (fmul (fneg (gain s))) observation),
     set_action (map (fmul (fneg (gain s))) observation) s).
Proof.
  intros B. unfold compute_action. rewrite apply_action_bounds_run.
  unfold bind, get, ret. cbn. rewrite B. reflexivity.
Qed.

Lemma kin_point_sampled_total (s : KinPoint.t C) time (observation : vec) :
  action_bounds s = BoundsEmpty ->
  exists a s',
    compute_action_sampled time observation s = (Ok a, s')
    /\ action_bounds s' = BoundsEmpty.
Proof.
  intros B. unfold compute_action_sampled, bind, modify, get, ret.
  cbn -[compute_action].
  destruct (check_time time (clock s)) as [[|] c]; cbn -[compute_action].
  - rewrite kin_point_unbounded_action by exact B. cbn.
    do 2 eexists; split; [reflexivity | exact B].
  - do 2 eexists; split; [reflexivity | exact B].
Qed.

(** [ControllerKinPoint] constructed with [action_bounds=None] never raises:
    the constructor turns [None] into the empty list, and over any sequence
    of ticks every call of [compute_action_sampled] returns an action. *)
Theorem X8_kin_point_without_bounds_never_raises
    (g : fl) (t0 dt : R) (c : C) (ticks : list (R * vec * vec)) :
  Forall (fun r => exists a, r = Ok a)
         (fst (CALF.run_safe ticks (init g BoundsNone t0 dt c))).
Proof.
  assert (G : forall s : KinPoint.t C,
             action_bounds s = BoundsEmpty ->
             Forall (fun r => exists a, r = Ok a)
                    (fst (CALF.run_safe ticks s))).
  { induction ticks as [| [[time observation] target] rest IH]; intros s B;
      [constructor |].
    cbn [CALF.run_safe safe_compute_action_sampled KinPoint_SafeOps].
    destruct (kin_point_sampled_total s time observation B)
      as (a & s' & -> & B').
    specialize (IH s' B').
    destruct (CALF.run_safe rest s') as [rs x]. cbn in *.
    constructor; [now exists a | exact IH]. }
  apply G. reflexivity.
Qed.

End KinPointFacts.

(* ------------------------------------------------------------------ *)
(** ** More on the orchestrator *)

Lemma zip_with_empty_target (f : fl -> fl -> fl) (a : vec) :
  (2 <= List.length a)%nat -> zip_with f a [] = None.
Proof.
  destruct a as [| x [| y a]]; cbn; intros L; try lia. reflexivity.
Qed.

Ltac on_status :=
  match goal with
  | |- context [CALF.accepted ?st] =>
      let E := fresh "Acc" in destruct (CALF.accepted st) eqn:E
  end.

Section MissingTarget.
Import CALF.
Context {AInt CInt S C : Type} `{SafeOps S} `{ClockOps C}
        `{CALF.Collaborators AInt CInt S C}.

Abbreviation state := (CALF.t AInt CInt S C).

(** A target that cannot be subtracted from the observation stops
    [invoke_safe_action] after the critic's weights are restored and before
    the fallback controller or the actor is called. *)
Lemma invoke_safe_action_mismatch (s : state) (observation : vec) :
  zip_with fsub observation (observation_target s) = None ->
  invoke_safe_action observation s
  = (Raise ValueError,
     record CriticRestoreWeights (with_critic critic_restore_weights s)).
Proof.
  intros Z. unfold invoke_safe_action. unfold_m. cbn. rewrite Z. reflexivity.
Qed.

Lemma expost_without_target (s : state) observation icu time target :
  zip_with fsub observation (observation_target s) = None ->
  fst (expost_compute_action observation icu time target s)
  = Raise ValueError.
Proof.
  intros Z. unfold expost_compute_action. unfold_m.
  cbn -[invoke_safe_action].
  on_status; rewrite invoke_safe_action_mismatch by exact Z; reflexivity.
Qed.

Lemma predictive_backfill_keeps_target (s s' : state) observation target r :
  predictive_backfill observation target s = (r, s') ->
  observation_target s' = observation_target s
  /\ (r = Ok tt \/ r = Raise ValueError).
Proof.
  unfold predictive_backfill. unfold_m. cbn.
  destruct (accepted (a_status (actor s))); cbn.
  - destruct (CALFs (critic s)); cbn.
    + intros R. injection R as <- <-. auto.
    + destruct (zip_with fsub observation target); cbn;
        intros R; injection R as <- <-; auto.
  - intros R. injection R as <- <-. auto.
Qed.

Lemma predictive_without_target (s : state) observation icu time target :
  zip_with fsub observation (observation_target s) = None ->
  fst (predictive_compute_action observation icu time target s)
  = Raise ValueError.
Proof.
  intros Z. unfold predictive_compute_action. unfold_m.
  cbn -[invoke_safe_action predictive_backfill].
  match goal with
  | |- context [predictive_backfill ?o ?g ?x] =>
      destruct (predictive_backfill o g x) as [r s0] eqn:B;
      destruct (predictive_backfill_keeps_target _ _ _ _ _ B) as [T [-> | ->]];
      cbn in T
  end; [| reflexivity].
  cbn -[invoke_safe_action].
  on_status;
    rewrite invoke_safe_action_mismatch by (cbn; rewrite T; exact Z);
    reflexivity.
Qed.

(** The default [observation_target=[]] of [compute_action_sampled] is not
    usable with the CALF orchestrators: at every sampling boundary, on an
    observation of two or more channels, the call raises [ValueError] (from
    [observation - self.observation_target]). *)
Theorem X9_calf_sample_without_target_raises
    (s : state) (time : R) (observation : vec) (c : C) :
  kind s = ExPost \/ kind s = Predictive ->
  check_time time (clock s) = (true, c) ->
  (2 <= List.length observation)%nat ->
  fst (controller_compute_action_sampled time observation [] s)
  = Raise ValueError.
Proof.
  intros K New L.
  pose proof (zip_with_empty_target fsub observation L) as Z.
  unfold controller_compute_action_sampled.
  rewrite apply_action_bounds_run.
  unfold sampled_body. unfold_m. cbn -[compute_action]. rewrite New.
  destruct (check_time time (c_clock (critic s))) as [upd k].
  cbn -[compute_action].
  match goal with
  | |- context [compute_action ?o ?i ?t ?g ?x] =>
      assert (R : fst (compute_action o i t g x) = Raise ValueError);
      [| destruct (compute_action o i t g x) as [r s1]; cbn in R; subst r;
         reflexivity]
  end.
  destruct K as [K | K].
  - rewrite compute_action_expost by exact K.
    apply expost_without_target. exact Z.
  - rewrite compute_action_predictive by exact K.
    apply predictive_without_target. exact Z.
Qed.

End MissingTarget.

Section MissingTargetOnReference.
Import CALF Ref.

Lemma X9_calf_sample_without_target_raises_witness :
  fst (controller_compute_action_sampled 1 [Fin 1; Fin 0] [] critic_fails)
  = Raise ValueError.
Proof.
  apply (X9_calf_sample_without_target_raises
           critic_fails 1 [Fin 1; Fin 0]
           {| rc_period := 1; rc_time_start := 0; rc_current_time := 1 |}).
  - left; reflexivity.
  - apply ref_check_time_crossed. cbn. lra.
  - cbn. lia.
Defined.

End MissingTargetOnReference.

Section MoreOrchestrator.
Import CALF.
Context {AInt CInt S C : Type} `{SafeOps S} `{ClockOps C}
        `{CALF.Collaborators AInt CInt S C}.

Abbreviation state := (CALF.t AInt CInt S C).

(** In safe-only mode no learning takes place: over any sequence of ticks
    the call log stays as it was, the critic and its clock are untouched,
    the controller's own clock is never consulted, and of the actor only
    the embedded fallback controller changes. *)
Theorem X10_safe_only_bypasses_learning
    (ticks : list (R * vec * vec)) (s : state) :
  safe_only s = true ->
  let s' := snd (run_sampled ticks s) in
  log s' = log s /\ critic s' = critic s /\ clock s' = clock s
  /\ action (actor s') = action (actor s)
  /\ a_status (actor s') = a_status (actor s)
  /\ a_rest (actor s') = a_rest (actor s).
Proof.
  revert s. induction ticks as [| [[time observation] target] rest IH];
    intros s E; [cbn; auto 10 |].
  cbn [run_sampled].
  rewrite (safe_only_step s time observation target E).
  destruct (safe_compute_action_sampled time observation
              (safe_controller (actor s))) as [r x].
  cbn [fst snd].
  specialize (IH (with_actor (set_safe_controller x) s) E).
  destruct (run_sampled rest (with_actor (set_safe_controller x) s))
    as [rs s2].
  cbn in IH |- *. exact IH.
Qed.

(** Resetting does not change what a held tick returns: [reset] assigns
    [actor.action_old], and a call of [compute_action_sampled] that the
    rewound clock reports as no new sample returns the action the actor
    held before the reset, not [action_init]. *)
Theorem X11_reset_keeps_held_action
    (s : state) (time : R) (observation target a : vec) (c : C) :
  check_time time (clock_reset (clock s)) = (false, c) ->
  clipped (action_bounds s) (action (actor s)) = Ok a ->
  fst (controller_compute_action_sampled time observation target (reset s))
  = Ok a.
Proof.
  intros Hold Cl.
  destruct (controller_sampled_hold (reset s) time observation target c a
              Hold Cl) as (s' & R & _).
  now rewrite R.
Qed.

(** The backfill of the Predictive variant overwrites the last certificate
    and never appends: the length of [CALFs] is the same after it. *)
Theorem X12_backfill_keeps_length
    (s s' : state) (observation target : vec) :
  predictive_backfill observation target s = (Ok tt, s') ->
  List.length (CALFs (critic s')) = List.length (CALFs (critic s)).
Proof.
  intros R. apply predictive_backfill_run in R.
  destruct (accepted (a_status (actor s))); [| now subst].
  destruct R as (_ & _ & _ & R).
  destruct (CALFs (critic s)) as [| x xs] eqn:E.
  - destruct R as [_ ->]. reflexivity.
  - destruct R as (d & _ & _ & ->). unfold set_last.
    rewrite length_app. cbn [List.length].
    assert (L : forall (l : list fl) y,
               List.length (removelast (y :: l)) = List.length l).
    { induction l as [| z l IH]; intros y; [reflexivity |].
      cbn [removelast List.length] in *. now rewrite IH. }
    rewrite L. lia.
Qed.

End MoreOrchestrator.

Section MoreOnReference.
Import CALF Ref.

Lemma X10_safe_only_bypasses_learning_witness :
  log (snd (run_sampled [(1, [Fin 1; Fin 0], [Fin 0; Fin 0])] only_safe))
  = log only_safe.
Proof.
  apply (X10_safe_only_bypasses_learning
           [(1, [Fin 1; Fin 0], [Fin 0; Fin 0])] only_safe).
  reflexivity.
Defined.

Lemma X11_reset_keeps_held_action_witness :
  fst (controller_compute_action_sampled (1 / 2) [Fin 1; Fin 0] [Fin 0; Fin 0]
                                         (reset critic_fails))
  = Ok [Fin 0; Fin 0].
Proof.
  apply (X11_reset_keeps_held_action
           critic_fails (1 / 2) [Fin 1; Fin 0] [Fin 0; Fin 0] [Fin 0; Fin 0]
           (new_clock 1 0)).
  - apply ref_check_time_hold. cbn. lra.
  - reflexivity.
Defined.

Lemma X12_backfill_keeps_length_witness :
  exists s' : Ref.state,
    predictive_backfill [Fin 1; Fin 2] [Fin 0; Fin 0] after_accepted
    = (Ok tt, s')
    /\ List.length (CALFs (critic s'))
       = List.length (CALFs (critic after_accepted)).
Proof.
  destruct after_accepted_backfill_returns as (s' & R).
  exists s'. split; [exact R |].
  apply (X12_backfill_keeps_length
           after_accepted s' [Fin 1; Fin 2] [Fin 0; Fin 0] R).
Defined.

End MoreOnReference.

Section FixedCritic.
Import CALF.
Context {AInt CInt S C : Type} `{SafeOps S} `{ClockOps C}
        `{CALF.Collaborators AInt CInt S C}.

Abbreviation state := (CALF.t AInt CInt S C).

Lemma rl_body_without_critic_update (s : state) observation time target :
  exists a0 s0,
    rl_compute_action_body observation false time target s = (Ok a0, s0)
    /\ log s0 = log s
                ++ [CriticUpdateBuffers observation (action (actor s));
                    ActorReceiveObservation observation;
                    ActorUpdateTarget target; CriticUpdateTarget target;
                    ActorOptimizeWeights; ActorUpdateAndCacheWeights;
                    ActorUpdateAction]
    /\ critic s0 = critic_update_target target
                     (critic_update_buffers observation (action (actor s))
                        (critic s)).
Proof.
  unfold rl_compute_action_body. unfold_m. cbn.
  do 2 eexists. split; [reflexivity |]. cbn.
  rewrite <- !app_assoc. split; reflexivity.
Qed.

Lemma cycle_under_fixed_critic
    (s s' : state) observation time target a :
  compute_action observation false time target s = (Ok a, s') ->
  exists evs,
    log s' = log s ++ evs
    /\ (kind s = RL -> none_of is_critic_learning evs = true)
    /\ (kind s <> RL -> In (CriticOptimizeWeights time) evs).
Proof.
  destruct (kind s) eqn:E.
  - unfold compute_action, bind, get. rewrite E.
    rewrite apply_action_bounds_run.
    destruct (rl_body_without_critic_update s observation time target)
      as (a0 & s0 & -> & L & _).
    cbv zeta.
    destruct (clipped (action_bounds_of (store_action a0 s0)) a0);
      [| discriminate].
    intros R. injection R as <- <-.
    eexists. split; [| split].
    + cbn. destruct (bounds_differ_from_empty_list (action_bounds s0));
        exact L.
    + reflexivity.
    + congruence.
  - rewrite (compute_action_expost _ _ _ _ _ E). intros R.
    destruct (expost_sample _ _ _ _ _ _ _ R) as (tail & fb & L & T & _).
    destruct (certified_tail_starts_with_optimization _ _ _ _ T) as [post ->].
    eexists. split; [exact L |]. split; [congruence |].
    intros _. apply in_or_app. right. now left.
  - rewrite (compute_action_predictive _ _ _ _ _ E). intros R.
    destruct (predictive_sample _ _ _ _ _ _ _ R)
      as (bf & tail & fb & L & _ & T & _).
    destruct (certified_tail_starts_with_optimization _ _ _ _ T) as [post ->].
    eexists. split; [exact L |]. split; [congruence |].
    intros _. do 3 (apply in_or_app; right). now left.
Qed.

(** [is_fixed_critic_weights] only binds [RLController]: with the flag set,
    a sample of an [RLController] makes no call that optimizes the critic or
    changes its weights, while a sample of a CALF orchestrator still calls
    the critic's optimizer ([is_critic_update] is not consulted there). *)
Theorem X14_fixed_critic_flag_only_binds_rl
    (s s' : state) (time : R) (observation target a : vec) (c : C) :
  check_time time (clock s) = (true, c) ->
  is_fixed_critic_weights s = true ->
  controller_compute_action_sampled time observation target s = (Ok a, s') ->
  exists evs,
    log s' = log s ++ evs
    /\ (kind s = RL -> none_of is_critic_learning evs = true)
    /\ (kind s <> RL -> In (CriticOptimizeWeights time) evs).
Proof.
  intros New Fixed. unfold controller_compute_action_sampled.
  rewrite apply_action_bounds_run.
  destruct (sampled_body time observation target s) as [[u | e] s1] eqn:B;
    [| discriminate].
  assert (L : exists evs,
             log s1 = log s ++ evs
             /\ (kind s = RL -> none_of is_critic_learning evs = true)
             /\ (kind s <> RL -> In (CriticOptimizeWeights time) evs)).
  { revert B. unfold sampled_body. unfold_m. cbn -[compute_action].
    rewrite New, Fixed.
    destruct (check_time time (c_clock (critic s))) as [upd k].
    cbn -[compute_action]. rewrite andb_false_r.
    match goal with
    | |- context [compute_action ?o ?i ?t ?g ?x] =>
        destruct (compute_action o i t g x) as [[? | ?] s0] eqn:Cy
    end; cbn; [| discriminate].
    intros R. injection R as <- <-.
    apply cycle_under_fixed_critic in Cy. exact Cy. }
  cbn. destruct (clipped (action_bounds s1) u); [| discriminate].
  intros R. injection R as <- <-.
  destruct (bounds_differ_from_empty_list (action_bounds s1)); exact L.
Qed.

Lemma rl_body_total (s : state) observation icu time target :
  exists a0 s0,
    rl_compute_action_body observation icu time target s = (Ok a0, s0)
    /\ action_bounds s0 = action_bounds s.
Proof.
  unfold rl_compute_action_body. unfold_m.
  destruct icu; cbn; do 2 eexists; split; reflexivity.
Qed.

(** With the empty list for bounds an [RLController] returns an action on
    every tick. *)
Lemma rl_sampled_returns (s : state) time observation target :
  kind s = RL ->
  action_bounds s = BoundsEmpty ->
  exists a s',
    controller_compute_action_sampled time observation target s = (Ok a, s').
Proof.
  intros K B. unfold controller_compute_action_sampled.
  rewrite apply_action_bounds_run.
  unfold sampled_body. unfold_m. cbn -[compute_action].
  destruct (check_time time (clock s)) as [[|] c];
    destruct (check_time time (c_clock (critic s))) as [upd k];
    cbn -[compute_action].
  - unfold compute_action, bind, get. cbn -[rl_compute_action_body].
    rewrite K. rewrite apply_action_bounds_run.
    match goal with
    | |- context [rl_compute_action_body ?o ?i ?t ?g ?x] =>
        destruct (rl_body_total x o i t g) as (a0 & s0 & -> & B0)
    end.
    cbn in B0 |- *. rewrite B0, B. cbn. rewrite B0, B. cbn.
    do 2 eexists; reflexivity.
  - rewrite B. cbn. do 2 eexists; reflexivity.
Qed.

End FixedCritic.

Section FixedCriticOnReference.
Import CALF Ref.

Lemma X14_fixed_critic_flag_only_binds_rl_witness :
  exists (s' : Ref.state) evs,
    log s' = log rl_fixed_critic ++ evs
    /\ (kind rl_fixed_critic = RL -> none_of is_critic_learning evs = true).
Proof.
  destruct (rl_sampled_returns rl_fixed_critic 1 [Fin 1; Fin 0] [Fin 0; Fin 0]
              eq_refl eq_refl) as (a & s' & R).
  assert (New : check_time 1 (clock rl_fixed_critic)
                = (true, {| rc_period := 1; rc_time_start := 0;
                            rc_current_time := 1 |})).
  { apply ref_check_time_crossed. cbn. lra. }
  destruct (X14_fixed_critic_flag_only_binds_rl
              rl_fixed_critic s' 1 [Fin 1; Fin 0] [Fin 0; Fin 0] a _
              New eq_refl R) as (evs & L & N & _).
  exists s', evs. auto.
Defined.

End FixedCriticOnReference.

Section AcceptedOnReference.
Import CALF Ref.

(** The sample at [both_pass] returns through the accepted branch. *)
Lemma both_pass_returns :
  exists a (s' : Ref.state) evs,
    expost_compute_action [Fin 1; Fin 0] false 0 [Fin 0; Fin 0] both_pass
    = (Ok a, s')
    /\ log s' = log both_pass ++ evs
    /\ sample_accepted evs = true.
Proof.
  do 3 eexists. split; [vm_compute; reflexivity |].
  split; [cbn; reflexivity | vm_compute; reflexivity].
Qed.

Lemma X13_expost_accepted_sample_sets_baseline_witness :
  exists a (s' : Ref.state),
    a = action (actor s')
    /\ r_prev (critic s')
       = actor_running_objective (C := RefClock) (actor s') [Fin 1; Fin 0] a.
Proof.
  destruct both_pass_returns as (a & s' & evs & R & L & A).
  exists a, s'.
  apply (X13_expost_accepted_sample_sets_baseline
           both_pass s' [Fin 1; Fin 0] [Fin 0; Fin 0] false 0 a evs R L A).
Defined.

End AcceptedOnReference.

Section FallbackRaises.
Import CALF.
Context {AInt CInt S C : Type} `{SafeOps S} `{ClockOps C}
        `{CALF.Collaborators AInt CInt S C}.

Abbreviation state := (CALF.t AInt CInt S C).

(** An exception of the fallback controller is not caught: it leaves
    [invoke_safe_action] as it is, after the critic's weights were restored
    and with no call made on the actor, whose action slot is untouched. *)
Theorem X15_fallback_exception_propagates
    (s : state) (observation d : vec) (e : exn) (x : S) :
  zip_with fsub observation (observation_target s) = Some d ->
  safe_compute_action d (safe_controller (actor s)) = (Raise e, x) ->
  exists s',
    invoke_safe_action observation s = (Raise e, s')
    /\ log s' = log s ++ [CriticRestoreWeights]
    /\ action (actor s') = action (actor s)
    /\ critic s' = critic_restore_weights (critic s).
Proof.
  intros Z R. unfold invoke_safe_action. unfold_m. cbn. rewrite Z. cbn.
  rewrite R. eexists. split; [reflexivity |]. cbn. auto.
Qed.

End FallbackRaises.

(** With [action_bounds] left at [None] the NI controller raises on every
    observation of three or more channels. *)
Lemma ni_unset_bounds_raise {C} `{ClockOps C}
    (s : NI.t C) (x y angle : fl) (rest : vec) :
  NI.action_bounds s = BoundsNone ->
  fst (NI.compute_action (x :: y :: angle :: rest) s) = Raise TypeError.
Proof.
  intros B. unfold NI.compute_action.
  eapply none_bounds_raise;
    [ unfold NI.compute_action_body, NI.compute_LF, bind, lift_opt, modify,
        get, ret; cbn -[NI.kappa NI.LF_value]; reflexivity
    | exact B ].
Qed.

Section FallbackRaisesOnReference.
Import CALF Ref.

Lemma X15_fallback_exception_propagates_witness :
  exists s',
    invoke_safe_action [Fin 0; Fin 1; Fin 0] ni_backed = (Raise TypeError, s')
    /\ log s' = log ni_backed ++ [CriticRestoreWeights]
    /\ action (actor s') = action (actor ni_backed).
Proof.
  destruct (NI.compute_action
              [Fin (0 + - 0); Fin (1 + - 0); Fin (0 + - 0)] ni_unbounded)
    as [r x] eqn:E.
  pose proof (ni_unset_bounds_raise ni_unbounded
                (Fin (0 + - 0)) (Fin (1 + - 0)) (Fin (0 + - 0)) []
                eq_refl) as T.
  rewrite E in T. cbn in T. subst r.
  destruct (X15_fallback_exception_propagates
              (H := NI_SafeOps) (H1 := Ref.collaborators)
              ni_backed [Fin 0; Fin 1; Fin 0]
              [Fin (0 + - 0); Fin (1 + - 0); Fin (0 + - 0)] TypeError x
              eq_refl E) as (s' & R & L & A & _).
  exists s'. auto.
Defined.

End FallbackRaisesOnReference.

Section NIDirectCall.
Import NI.
Context {C : Type} `{ClockOps C}.

Lemma ni_compute_action_leaves_unclipped (s s' : NI.t C) (observation a : vec) :
  compute_action observation s = (Ok a, s') ->
  exists xNI,
    Cart2NH observation = Ok xNI
    /\ clipped (action_bounds s) (body_action s xNI) = Ok a
    /\ action_old s' = body_action s xNI
    /\ clock s' = clock s.
Proof.
  unfold compute_action. rewrite apply_action_bounds_run.
  unfold compute_action_body, compute_LF, bind, lift_opt, modify, get, ret,
    raise.
  destruct (Cart2NH observation) as [xNI | e]; cbn -[LF_value kappa];
    [| discriminate].
  fold (body_action s xNI).
  destruct (clipped (action_bounds s) (body_action s xNI)) as [c | e] eqn:Cl;
    [| discriminate].
  intros R. injection R as <- <-. exists xNI.
  destruct (bounds_differ_from_empty_list (action_bounds s)); cbn; auto.
Qed.

(** [compute_action] of the NI controller stores its action in
    [action_old] before the decorator clips it: after a direct call, a call
    of [compute_action_sampled] between boundaries returns the unclipped
    action, not the clipped one the direct call returned. *)
Theorem X16_ni_hold_after_direct_call_is_unclipped
    (s s1 : NI.t C) (observation a : vec) (time' : R) (observation' : vec)
    (c' : C) :
  compute_action observation s = (Ok a, s1) ->
  check_time time' (clock s1) = (false, c') ->
  exists xNI,
    Cart2NH observation = Ok xNI
    /\ clipped (action_bounds s) (body_action s xNI) = Ok a
    /\ fst (compute_action_sampled time' observation' s1)
       = Ok (body_action s xNI).
Proof.
  intros R Hold.
  destruct (ni_compute_action_leaves_unclipped _ _ _ _ R)
    as (xNI & E & Cl & Old & _).
  exists xNI. repeat split; try assumption.
  unfold compute_action_sampled, bind, modify, get, ret. cbn.
  rewrite Hold. cbn. now rewrite Old.
Qed.

(** After [reset], until the clock next reports a sample, the NI
    controller returns the zero action. *)
Lemma ni_reset_then_hold (s : NI.t C) time observation c :
  check_time time (clock s) = (false, c) ->
  fst (compute_action_sampled time observation (reset s))
  = Ok [Fin 0; Fin 0].
Proof.
  intros Hold. unfold compute_action_sampled, bind, modify, get, ret. cbn.
  rewrite Hold. reflexivity.
Qed.

End NIDirectCall.

Lemma X16_ni_hold_after_direct_call_is_unclipped_witness :
  exists xNI,
    NI.Cart2NH [Fin 0; Fin 1; Fin 0] = Ok xNI
    /\ fst (NI.compute_action_sampled
              (1 / 20) [Fin 5; Fin 5; Fin 5]
              (snd (NI.compute_action [Fin 0; Fin 1; Fin 0] ni_default)))
       = Ok (NI.body_action ni_default xNI).
Proof.
  destruct (NI.compute_action [Fin 0; Fin 1; Fin 0] ni_default)
    as [r s1] eqn:E.
  pose proof (compute_action_unclipped ni_default [Fin 0; Fin 1; Fin 0] _
                (NIFacts.Cart2NH_axis 1) eq_refl) as F.
  rewrite E in F. cbn [fst] in F. subst r.
  destruct (ni_compute_action_leaves_unclipped _ _ _ _ E)
    as (xNI0 & _ & _ & _ & Ck).
  assert (Hold : check_time (1 / 20) (NI.clock s1) = (false, NI.clock s1)).
  { rewrite Ck. apply ref_check_time_hold. cbn. lra. }
  destruct (X16_ni_hold_after_direct_call_is_unclipped
              ni_default s1 [Fin 0; Fin 1; Fin 0] _ (1 / 20)
              [Fin 5; Fin 5; Fin 5] (NI.clock s1) E Hold)
    as (xNI & Ex & _ & R).
  exists xNI. cbn [snd]. auto.
Defined.

Section BoundsAtEntryPoint.
Import CALF.
Context {AInt CInt S C : Type} `{SafeOps S} `{ClockOps C}
        `{CALF.Collaborators AInt CInt S C}.

Abbreviation state := (CALF.t AInt CInt S C).

Lemma invoke_safe_action_keeps_bounds (s s' : state) observation r :
  invoke_safe_action observation s = (r, s') ->
  action_bounds s' = action_bounds s.
Proof.
  unfold invoke_safe_action. unfold_m. cbn.
  destruct (zip_with fsub observation (observation_target s)); cbn.
  - destruct (safe_compute_action v (safe_controller (actor s)))
      as [[a | e] x]; cbn; intros R; injection R as <- <-; reflexivity.
  - intros R; injection R as <- <-; reflexivity.
Qed.

Ltac through_safe_call :=
  match goal with
  | |- context [invoke_safe_action ?o ?x] =>
      let s1 := fresh "s" in
      let I1 := fresh "I" in
      let B1 := fresh "B" in
      destruct (invoke_safe_action o x) as [[[] | ?] s1] eqn:I1;
      pose proof (invoke_safe_action_keeps_bounds _ _ _ _ I1) as B1;
      cbn in B1; cbn -[invoke_safe_action]
  end.

Ltac bounds_kept :=
  let R := fresh "R" in
  intros R; injection R as <- <-; cbn; congruence.

Lemma expost_keeps_bounds (s s' : state) observation icu time target r :
  expost_compute_action observation icu time target s = (r, s') ->
  action_bounds s' = action_bounds s.
Proof.
  unfold expost_compute_action. unfold_m. cbn -[invoke_safe_action].
  on_status.
  - through_safe_call; [| bounds_kept].
    on_status; [bounds_kept |].
    through_safe_call; bounds_kept.
  - through_safe_call; bounds_kept.
Qed.

Lemma predictive_backfill_keeps_bounds (s s' : state) observation target r :
  predictive_backfill observation target s = (r, s') ->
  action_bounds s' = action_bounds s.
Proof.
  unfold predictive_backfill. unfold_m. cbn.
  destruct (accepted (a_status (actor s))); cbn.
  - destruct (CALFs (critic s)); cbn.
    + bounds_kept.
    + destruct (zip_with fsub observation target); cbn; bounds_kept.
  - bounds_kept.
Qed.

Lemma predictive_keeps_bounds (s s' : state) observation icu time target r :
  predictive_compute_action observation icu time target s = (r, s') ->
  action_bounds s' = action_bounds s.
Proof.
  unfold predictive_compute_action. unfold_m.
  cbn -[invoke_safe_action predictive_backfill].
  match goal with
  | |- context [predictive_backfill ?o ?g ?x] =>
      destruct (predictive_backfill o g x) as [[[] | ?] s0] eqn:Bf;
      pose proof (predictive_backfill_keeps_bounds _ _ _ _ _ Bf) as B0;
      cbn in B0; cbn -[invoke_safe_action]
  end; [| bounds_kept].
  on_status.
  - through_safe_call; [| bounds_kept].
    on_status; [bounds_kept |].
    through_safe_call; bounds_kept.
  - through_safe_call; bounds_kept.
Qed.

Lemma compute_action_keeps_bounds (s s' : state) observation icu time target r :
  compute_action observation icu time target s = (r, s') ->
  action_bounds s' = action_bounds s.
Proof.
  unfold compute_action, bind, get. destruct (kind s).
  - rewrite apply_action_bounds_run.
    destruct (rl_body_total s observation icu time target)
      as (a0 & s0 & -> & B0).
    cbv zeta. cbn.
    destruct (clipped (action_bounds s0) a0);
      [destruct (bounds_differ_from_empty_list (action_bounds s0)) |];
      bounds_kept.
  - apply expost_keeps_bounds.
  - apply predictive_keeps_bounds.
Qed.

Lemma sampled_body_keeps_bounds (s s' : state) time observation target r :
  sampled_body time observation target s = (r, s') ->
  action_bounds s' = action_bounds s.
Proof.
  unfold sampled_body. unfold_m. cbn -[compute_action].
  destruct (check_time time (clock s)) as [new c].
  destruct (check_time time (c_clock (critic s))) as [upd k].
  cbn -[compute_action]. destruct new.
  - match goal with
    | |- context [compute_action ?o ?i ?t ?g ?x] =>
        destruct (compute_action o i t g x) as [[? | ?] s0] eqn:Cy;
        apply compute_action_keeps_bounds in Cy; cbn in Cy
    end; cbn; bounds_kept.
  - bounds_kept.
Qed.

(** Bound containment at the entry point: with rows [low <= high]
    configured, every action [Controller.compute_action_sampled] returns,
    on a held tick or after a full cycle of any of the three controllers,
    lies inside its rows, provided the actor's action has one channel per
    row and no NaN; the bounds themselves are never changed by a call. *)
Theorem X17_sampled_action_within_bounds
    (s s' : state) (time : R) (observation target a : vec)
    (rows : list (fl * fl)) :
  action_bounds s = BoundsArray rows ->
  well_formed_rows rows ->
  controller_compute_action_sampled time observation target s = (Ok a, s') ->
  List.length (action (actor s')) = List.length rows ->
  Forall not_nan (action (actor s')) ->
  within_bounds rows a /\ action_bounds s' = BoundsArray rows.
Proof.
  intros B W R L N.
  assert (B' : action_bounds s' = BoundsArray rows).
  { revert R. unfold controller_compute_action_sampled.
    rewrite apply_action_bounds_run.
    destruct (sampled_body time observation target s) as [[u | e] s1] eqn:Bd;
      [| discriminate].
    apply sampled_body_keeps_bounds in Bd. cbn.
    destruct (clipped (action_bounds s1) u); [| discriminate].
    intros R. injection R as <- <-.
    destruct (bounds_differ_from_empty_list (action_bounds s1)); cbn;
      congruence. }
  split; [| exact B'].
  apply controller_sampled_result in R. rewrite B' in R.
  destruct (clipped_within_bounds _ rows L N W) as (c & Cl & In).
  rewrite R in Cl. now injection Cl as <-.
Qed.

End BoundsAtEntryPoint.

Section BoundsAtEntryPointOnReference.
Import CALF Ref.

Lemma bounded_held_tick :
  exists s' : Ref.state,
    controller_compute_action_sampled (1 / 2) [Fin 1; Fin 0] [Fin 0; Fin 0]
                                      bounded
    = (Ok [Fin 0; Fin 0], s')
    /\ actor s' = actor bounded.
Proof.
  assert (Hold : check_time (1 / 2) (clock bounded) = (false, new_clock 1 0)).
  { apply ref_check_time_hold. cbn. lra. }
  assert (Cl : clipped (action_bounds bounded) (action (actor bounded))
               = Ok [Fin 0; Fin 0]).
  { change (action_bounds bounded)
      with (BoundsArray [(Fin (-1), Fin 1); (Fin (-1), Fin 1)]).
    rewrite clipped_rows by reflexivity. cbn.
    rewrite !Rmax_left, !Rmin_left by lra. reflexivity. }
  destruct (controller_sampled_hold bounded (1 / 2) [Fin 1; Fin 0]
              [Fin 0; Fin 0] _ _ Hold Cl) as (s' & R & _ & A & _).
  now exists s'.
Qed.

Lemma X17_sampled_action_within_bounds_witness :
  within_bounds [(Fin (-1), Fin 1); (Fin (-1), Fin 1)] [Fin 0; Fin 0].
Proof.
  destruct bounded_held_tick as (s' & R & A).
  apply (X17_sampled_action_within_bounds
           bounded s' (1 / 2) [Fin 1; Fin 0] [Fin 0; Fin 0] [Fin 0; Fin 0]
           [(Fin (-1), Fin 1); (Fin (-1), Fin 1)]).
  - reflexivity.
  - repeat constructor; cbn; lra.
  - exact R.
  - rewrite A. reflexivity.
  - rewrite A. repeat constructor.
Defined.

End BoundsAtEntryPointOnReference.

(* ------------------------------------------------------------------ *)
(** ** Short observations *)

Lemma ni_Cart2NH_short (observation : vec) :
  (List.length observation < 3)%nat ->
  NI.Cart2NH observation = Raise IndexError.
Proof.
  destruct observation as [| x [| y [| angle rest]]]; cbn; intros L;
    try reflexivity; lia.
Qed.

Lemma clf_Cart2NH_short (observation : vec) :
  (List.length observation < 5)%nat ->
  CLF.Cart2NH observation = Raise IndexError.
Proof.
  destruct observation as [| x [| y [| angle [| v [| omega rest]]]]]; cbn;
    intros L; try reflexivity; lia.
Qed.

(** An observation with too few channels (fewer than three for the NI
    controller, fewer than five for the ENDI controller) makes
    [compute_action] raise [IndexError] before anything is assigned: the
    controller is left exactly as it was. *)
Theorem X18_short_observation_raises_index_error
    {C} `{ClockOps C} (f : NI.V3 -> fl * fl -> fl) (observation : vec) :
  (forall s : NI.t C,
      (List.length observation < 3)%nat ->
      NI.compute_action observation s = (Raise IndexError, s))
  /\ (forall q : CLF.t C,
        (List.length observation < 5)%nat ->
        CLF.compute_action f observation q = (Raise IndexError, q)).
Proof.
  split.
  - intros s L. unfold NI.compute_action. rewrite apply_action_bounds_run.
    unfold NI.compute_action_body, bind, lift_opt, raise.
    now rewrite (ni_Cart2NH_short observation L).
  - intros q L. unfold CLF.compute_action. rewrite apply_action_bounds_run.
    unfold CLF.compute_action_body, bind, lift_opt, raise.
    now rewrite (clf_Cart2NH_short observation L).
Qed.

Lemma X18_short_observation_raises_index_error_witness :
  NI.compute_action [Fin 1; Fin 2] ni_default = (Raise IndexError, ni_default).
Proof.
  apply (proj1 (X18_short_observation_raises_index_error
                  (fun _ _ => Fin 0) [Fin 1; Fin 2]) ni_default).
  cbn. lia.
Defined.

Lemma ni_sampled_hold {C} `{ClockOps C}
    (s : NI.t C) (time : R) (observation : vec) (c : C) :
  check_time time (NI.clock s) = (false, c) ->
  NI.compute_action_sampled time observation s
  = (Ok (NI.action_old s), NI.set_clock c s).
Proof.
  intros Hold.
  unfold NI.compute_action_sampled, bind, modify, get, ret. cbn.
  rewrite Hold. reflexivity.
Qed.

Lemma X7_ni_hold_and_logs_witness :
  NI.compute_action_sampled (3 / 40) [Fin 5; Fin 5; Fin 5]
    (NI.set_clock (new_clock (1 / 10) 0) ni_default)
  = (Ok [Fin 0; Fin 0],
     NI.set_clock (new_clock (1 / 10) 0)
       (NI.set_clock (new_clock (1 / 10) 0) ni_default)).
Proof.
  assert (Hold : forall t : R,
             t < 1 / 10 ->
             check_time t (new_clock (1 / 10) 0)
             = (false, new_clock (1 / 10) 0)).
  { intros t L. apply ref_check_time_hold. cbn. lra. }
  apply (proj1 X7_ni_hold_and_logs
           ni_default _ (1 / 20) [Fin 0; Fin 1; Fin 0] [Fin 0; Fin 0]
           (3 / 40) [Fin 5; Fin 5; Fin 5] (new_clock (1 / 10) 0)).
  - apply (ni_sampled_hold ni_default (1 / 20) [Fin 0; Fin 1; Fin 0]
             (new_clock (1 / 10) 0)).
    apply Hold. lra.
  - apply Hold. lra.
Defined.

(* ------------------------------------------------------------------ *)
(** ** The controller's clock across a cycle *)

Section ClockAcrossCycle.
Import CALF.
Context {AInt CInt S C : Type} `{SafeOps S} `{ClockOps C}
        `{CALF.Collaborators AInt CInt S C}.

Abbreviation state := (CALF.t AInt CInt S C).

Lemma invoke_safe_action_keeps_clock (s s' : state) observation r :
  invoke_safe_action observation s = (r, s') ->
  clock s' = clock s.
Proof.
  unfold invoke_safe_action. unfold_m. cbn.
  destruct (zip_with fsub observation (observation_target s)); cbn.
  - destruct (safe_compute_action v (safe_controller (actor s)))
      as [[a | e] x]; cbn; intros R; injection R as <- <-; reflexivity.
  - intros R; injection R as <- <-; reflexivity.
Qed.

Ltac past_safe_call :=
  match goal with
  | |- context [invoke_safe_action ?o ?x] =>
      let s1 := fresh "s" in
      let I1 := fresh "I" in
      let B1 := fresh "B" in
      destruct (invoke_safe_action o x) as [[[] | ?] s1] eqn:I1;
      pose proof (invoke_safe_action_keeps_clock _ _ _ _ I1) as B1;
      cbn in B1; cbn -[invoke_safe_action]
  end.

Ltac clock_kept :=
  let R := fresh "R" in
  intros R; injection R as <- <-; cbn; congruence.

Lemma expost_keeps_clock (s s' : state) observation icu time target r :
  expost_compute_action observation icu time target s = (r, s') ->
  clock s' = clock s.
Proof.
  unfold expost_compute_action. unfold_m. cbn -[invoke_safe_action].
  on_status.
  - past_safe_call; [| clock_kept].
    on_status; [clock_kept |].
    past_safe_call; clock_kept.
  - past_safe_call; clock_kept.
Qed.

Lemma predictive_backfill_keeps_clock (s s' : state) observation target r :
  predictive_backfill observation target s = (r, s') ->
  clock s' = clock s.
Proof.
  unfold predictive_backfill. unfold_m. cbn.
  destruct (accepted (a_status (actor s))); cbn.
  - destruct (CALFs (critic s)); cbn.
    + clock_kept.
    + destruct (zip_with fsub observation target); cbn; clock_kept.
  - clock_kept.
Qed.

Lemma predictive_keeps_clock (s s' : state) observation icu time target r :
  predictive_compute_action observation icu time target s = (r, s') ->
  clock s' = clock s.
Proof.
  unfold predictive_compute_action. unfold_m.
  cbn -[invoke_safe_action predictive_backfill].
  match goal with
  | |- context [predictive_backfill ?o ?g ?x] =>
      destruct (predictive_backfill o g x) as [[[] | ?] s0] eqn:Bf;
      pose proof (predictive_backfill_keeps_clock _ _ _ _ _ Bf) as B0;
      cbn in B0; cbn -[invoke_safe_action]
  end; [| clock_kept].
  on_status.
  - past_safe_call; [| clock_kept].
    on_status; [clock_kept |].
    past_safe_call; clock_kept.
  - past_safe_call; clock_kept.
Qed.

Lemma rl_body_keeps_clock (s : state) observation icu time target :
  exists a0 s0,
    rl_compute_action_body observation icu time target s = (Ok a0, s0)
    /\ clock s0 = clock s.
Proof.
  unfold rl_compute_action_body. unfold_m.
  destruct icu; cbn; do 2 eexists; split; reflexivity.
Qed.

(** [compute_action] never consults the controller's own clock. *)
Lemma compute_action_keeps_clock (s s' : state) observation icu time target r :
  compute_action observation icu time target s = (r, s') ->
  clock s' = clock s.
Proof.
  unfold compute_action, bind, get. destruct (kind s).
  - rewrite apply_action_bounds_run.
    destruct (rl_body_keeps_clock s observation icu time target)
      as (a0 & s0 & -> & B0).
    cbv zeta. cbn.
    destruct (clipped (action_bounds s0) a0);
      [destruct (bounds_differ_from_empty_list (action_bounds s0)) |];
      clock_kept.
  - apply expost_keeps_clock.
  - apply predictive_keeps_clock.
Qed.

(** After a boundary the controller's clock is the one [check_time]
    handed back. *)
Lemma sampled_boundary_clock (s s' : state) time observation target c a :
  check_time time (clock s) = (true, c) ->
  controller_compute_action_sampled time observation target s = (Ok a, s') ->
  clock s' = c.
Proof.
  intros New R.
  destruct (controller_sampled_boundary _ _ _ _ _ _ _ New R)
    as (u & s1 & Cy & _ & _ & _ & Ck).
  apply compute_action_keeps_clock in Cy.
  rewrite Ck, Cy. unfold at_tick. cbn. rewrite New. reflexivity.
Qed.

End ClockAcrossCycle.

Section HoldOnReference.
Import CALF Ref.

Lemma C2_zero_order_hold_witness :
  exists a (s1 s2 : Ref.state) evs,
    controller_compute_action_sampled 1 [Fin 1; Fin 0] [Fin 0; Fin 0]
                                      rl_fixed_critic
    = (Ok a, s1)
    /\ log s1 = log rl_fixed_critic ++ evs
    /\ full_cycle 1 [Fin 1; Fin 0] [Fin 0; Fin 0]
                  (action (actor rl_fixed_critic))
                  (critic_update_due 1 rl_fixed_critic) RL evs
    /\ controller_compute_action_sampled (3 / 2) [Fin 5; Fin 5]
                                         [Fin 0; Fin 0] s1
       = (Ok a, s2)
    /\ log s2 = log s1 /\ actor s2 = actor s1.
Proof.
  destruct (rl_sampled_returns rl_fixed_critic 1 [Fin 1; Fin 0] [Fin 0; Fin 0]
              eq_refl eq_refl) as (a & s1 & R).
  assert (New : check_time 1 (clock rl_fixed_critic)
                = (true, {| rc_period := 1; rc_time_start := 0;
                            rc_current_time := 1 |})).
  { apply ref_check_time_crossed. cbn. lra. }
  pose proof (sampled_boundary_clock _ _ _ _ _ _ _ New R) as Ck.
  assert (Hold : check_time (3 / 2) (clock s1) = (false, clock s1)).
  { rewrite Ck. apply ref_check_time_hold. cbn. lra. }
  destruct (proj1 (proj2 (proj2 (C2_zero_order_hold (fun _ _ => Fin 0))))
              rl_fixed_critic s1 1 [Fin 1; Fin 0] [Fin 0; Fin 0] _ a New R)
    as (_ & (evs & L & F) & _).
  destruct (proj1 (C2_zero_order_hold (fun _ _ => Fin 0))
              rl_fixed_critic s1 1 [Fin 1; Fin 0] [Fin 0; Fin 0]
              a (3 / 2) [Fin 5; Fin 5] [Fin 0; Fin 0]
              (clock s1) R Hold)
    as (s2 & R2 & L2 & A2).
  exists a, s1, s2, evs.
  split; [exact R |]. split; [exact L |]. split; [exact F |].
  split; [exact R2 |]. split; [exact L2 | exact A2].
Defined.

End HoldOnReference.
